(** * truthforge: the CIRCOM test-input generator

    A shallow embedding of
    [zk_integration/phase1_step1/circuits/scripts/generate_test_inputs.py]
    and the properties of its fixture files.

    The script reads [test_vectors.json], and for every test case writes
    [input_case{N}.json] and [expected_case{N}.json] into the [test]
    directory, followed by [test_summary.json].

    What is modelled
    - the values [json.load] returns ([pyobj]), dictionaries as association
      lists in insertion order;
    - [json.dump(..., indent=2)] as the function [json_dumps] to ASCII text;
    - the [test] directory as a finite map from base names to file contents,
      which may not exist yet, and the source file as what [json.load] makes
      of it;
    - exceptions, in an error-and-state monad [M]: a raised exception keeps
      the files written so far;
    - the [print] calls, for the exception they raise when the text cannot
      be encoded for the console; what the console shows is not kept.

    The environment the script is taken to run in
    - the console encodes as UTF-8 (every code point but the surrogates
      U+D800 to U+DFFF), so the literal text of the script always prints;
    - the paths of the script's own directories and the names of the files
      in the output directory are text the console can encode;
    - the operating system grants each request on a file or directory that
      exists, and the interpreter's limits on nesting depth are not
      reached. *)

From Stdlib Require Import Ascii DecimalString DecimalZ.
From stdpp Require Import gmap strings list fin_maps sorting.

Local Open Scope Z_scope.
#[local] Set Warnings "-register-all,-clear-no-such-hyp".

(** ** Python values *)

(** A Python [str] is a sequence of code points. *)
Definition str : Type := list N.

Definition py (s : string) : str :=
  Ascii.N_of_ascii <$> String.list_ascii_of_string s.

(** The values [json.load] builds.  A [float] is carried by the text
    [json.dump] emits for it ([float.__repr__], or [NaN], [Infinity],
    [-Infinity]); the script does no arithmetic on it.  A [dict] keeps its
    keys in insertion order. *)
Inductive pyobj : Type :=
  | PNone
  | PBool (b : bool)
  | PInt (z : Z)
  | PFloat (repr : string)
  | PStr (s : str)
  | PList (l : list pyobj)
  | PDict (kvs : list (str * pyobj)).

Inductive exn : Type :=
  | FileNotFoundError
  | JSONDecodeError
  | KeyError (key : str)
  | TypeError
  | AttributeError
  | UnicodeDecodeError
  | UnicodeEncodeError
  | ValueError
  | RecursionError
  | OSError.

Inductive result (A : Type) : Type :=
  | Ok (a : A)
  | Raise (e : exn).
Arguments Ok {A} a.
Arguments Raise {A} e.

Fixpoint dict_lookup (k : str) (kvs : list (str * pyobj)) : option pyobj :=
  match kvs with
  | [] => None
  | (k', v) :: rest => if decide (k = k') then Some v else dict_lookup k rest
  end.

(** [o[k]] for a string key [k]. *)
Definition getitem (o : pyobj) (k : str) : result pyobj :=
  match o with
  | PDict kvs =>
      match dict_lookup k kvs with
      | Some v => Ok v
      | None => Raise (KeyError k)
      end
  | _ => Raise TypeError
  end.

(** [o.get(k, default)]. *)
Definition dict_get (o : pyobj) (k : str) (dflt : pyobj) : result pyobj :=
  match o with
  | PDict kvs => Ok (default dflt (dict_lookup k kvs))
  | _ => Raise AttributeError
  end.

(** [len(o)] and the items [for ... in o] runs through. *)
Definition py_len (o : pyobj) : result Z :=
  match o with
  | PList l => Ok (Z.of_nat (length l))
  | PDict kvs => Ok (Z.of_nat (length kvs))
  | PStr s => Ok (Z.of_nat (length s))
  | _ => Raise TypeError
  end.

Definition py_iter (o : pyobj) : result (list pyobj) :=
  match o with
  | PList l => Ok l
  | PDict kvs => Ok ((λ kv, PStr kv.1) <$> kvs)
  | PStr s => Ok ((λ c, PStr [c]) <$> s)
  | _ => Raise TypeError
  end.

(** ** [json.dump] with [indent=2] *)

(** [str(z)] of a Python [int]. *)
Definition int_repr (z : Z) : string := NilEmpty.string_of_int (Z.to_int z).

Definition hex_digit (d : N) : ascii :=
  ascii_of_N (if (d <? 10)%N then 48 + d else 87 + d)%N.

(** ['{0:04x}'.format(n)] for [n < 0x10000]. *)
Definition hex4 (n : N) : string :=
  String (hex_digit ((n / 4096) `mod` 16)%N)
    (String (hex_digit ((n / 256) `mod` 16)%N)
      (String (hex_digit ((n / 16) `mod` 16)%N)
        (String (hex_digit (n `mod` 16)%N) EmptyString))).

(** The replacement of one code point in [encode_basestring_ascii]:
    printable ASCII stays, the short escapes of [ESCAPE_DCT], and
    [\uXXXX] (a surrogate pair above the basic plane) for the rest. *)
Definition escape_char (c : N) : string :=
  if decide (c = 92%N) then "\\"
  else if decide (c = 34%N) then
    String (ascii_of_N 92) (String (ascii_of_N 34) EmptyString)
  else if decide (c = 8%N) then "\b"
  else if decide (c = 12%N) then "\f"
  else if decide (c = 10%N) then "\n"
  else if decide (c = 13%N) then "\r"
  else if decide (c = 9%N) then "\t"
  else if ((32 <=? c) && (c <=? 126))%N then
    String (ascii_of_N c) EmptyString
  else if (c <? 65536)%N then "\u" +:+ hex4 c
  else
    let n := (c - 65536)%N in
    let s1 := N.lor 55296 (N.land (N.shiftr n 10) 1023) in
    let s2 := N.lor 56320 (N.land n 1023) in
    "\u" +:+ hex4 s1 +:+ "\u" +:+ hex4 s2.

Definition encode_basestring_ascii (s : str) : string :=
  String (ascii_of_N 34)
    (foldr (λ c acc, escape_char c +:+ acc)
           (String (ascii_of_N 34) EmptyString) s).

Definition newline : string := String (ascii_of_N 10) EmptyString.

(** ['\n' + _indent * level] with [_indent = '  ']. *)
Definition newline_indent (level : nat) : string :=
  newline +:+ foldr (λ _ acc, "  " +:+ acc) EmptyString (seq 0 level).

Fixpoint join (sep : string) (chunks : list string) : string :=
  match chunks with
  | [] => EmptyString
  | [c] => c
  | c :: rest => c +:+ sep +:+ join sep rest
  end.

(** The text [_iterencode(o, level)] yields, item separator [','] and key
    separator [': '].  Keys of a loaded document are always [str]. *)
Fixpoint encode (level : nat) (o : pyobj) : string :=
  match o with
  | PNone => "null"
  | PBool true => "true"
  | PBool false => "false"
  | PInt z => int_repr z
  | PFloat repr => repr
  | PStr s => encode_basestring_ascii s
  | PList [] => "[]"
  | PList l =>
      "[" +:+ newline_indent (S level)
        +:+ join ("," +:+ newline_indent (S level))
              (List.map (encode (S level)) l)
        +:+ newline_indent level +:+ "]"
  | PDict [] => "{}"
  | PDict kvs =>
      "{" +:+ newline_indent (S level)
        +:+ join ("," +:+ newline_indent (S level))
              (List.map (λ '(k, v), encode_basestring_ascii k +:+ ": "
                                     +:+ encode (S level) v) kvs)
        +:+ newline_indent level +:+ "}"
  end.

Definition json_dumps (o : pyobj) : string := encode 0 o.

(** ** The file system and the monad of the script *)

(** What [open(test_vectors_file)] followed by [json.load] finds: no file,
    text that is not JSON, a file on which they raise another exception
    ([UnicodeDecodeError] for bytes that are not text, [ValueError] for an
    integer with too many digits, [RecursionError] for arrays nested too
    deep, [OSError] for a file that cannot be read), or a document. *)
Inductive source : Type :=
  | Absent
  | NotJSON
  | Unreadable (e : exn)
  | Document (test_data : pyobj).

(** [test_dir] is [None] while the directory does not exist; [written] is the
    sequence of files the run has written so far, with their contents. *)
Record world : Type := World {
  test_vectors_file : source;
  test_dir : option (gmap string string);
  written : list (string * string)
}.

Definition M (A : Type) : Type := world → result A * world.

#[local] Instance M_ret : MRet M := λ A a w, (Ok a, w).
#[local] Instance M_bind : MBind M := λ A B f m w,
  match m w with
  | (Ok a, w') => f a w'
  | (Raise e, w') => (Raise e, w')
  end.

Definition lift {A : Type} (r : result A) : M A := λ w, (r, w).

(** [test_dir.mkdir(exist_ok=True)] *)
Definition mkdir_exist_ok : M unit := λ w,
  match test_dir w with
  | Some _ => (Ok tt, w)
  | None => (Ok tt, World (test_vectors_file w) (Some ∅) (written w))
  end.

(** [with open(test_vectors_file, 'r') as f: json.load(f)] *)
Definition load_test_vectors : M pyobj := λ w,
  match test_vectors_file w with
  | Absent => (Raise FileNotFoundError, w)
  | NotJSON => (Raise JSONDecodeError, w)
  | Unreadable e => (Raise e, w)
  | Document test_data => (Ok test_data, w)
  end.

(** [with open(test_dir / name, 'w') as f: json.dump(data, f, indent=2)] *)
Definition dump_to (name : string) (data : pyobj) : M unit := λ w,
  match test_dir w with
  | None => (Raise FileNotFoundError, w)
  | Some files =>
      (Ok tt, World (test_vectors_file w)
                    (Some (<[name := json_dumps data]> files))
                    (written w ++ [(name, json_dumps data)]))
  end.

(** The code points a UTF-8 console cannot encode. *)
Definition is_surrogate (c : N) : bool := ((55296 <=? c) && (c <=? 57343))%N.

(** Whether [str(o)] can be encoded for the console.  A [str] prints as it
    is; any other loaded value prints as digits, a keyword, or the [repr] of
    a container, in which surrogates are escaped. *)
Definition console_can_print (o : pyobj) : bool :=
  match o with
  | PStr s => forallb (λ c, negb (is_surrogate c)) s
  | _ => true
  end.

(** [print(f"...")], with [values] the values interpolated in the text ([[]]
    for a line of literal text).  The text is encoded strictly. *)
Definition print (values : list pyobj) : M unit := λ w,
  if forallb console_can_print values then (Ok tt, w)
  else (Raise UnicodeEncodeError, w).

(** [for item in sorted(test_dir.iterdir()): print(f"  - {item.name}")] *)
Definition print_created_files : M unit := λ w,
  match test_dir w with
  | None => (Raise FileNotFoundError, w)
  | Some files =>
      foldr (λ item (rest : M unit), _ ← print [PStr (py item)]; rest)
            (mret tt) (merge_sort String.le (elements (dom files))) w
  end.

(** ** The script *)

Definition input_file_name (idx : Z) : string :=
  "input_case" +:+ int_repr idx +:+ ".json".

Definition expected_file_name (idx : Z) : string :=
  "expected_case" +:+ int_repr idx +:+ ".json".

Definition summary_file_name : string := "test_summary.json".

(** The body of [for idx, test_case in enumerate(test_cases, start=1)],
    with [summary] the list built by [summary.append]. *)
Fixpoint for_test_cases (idx : Z) (items : list pyobj) (summary : list pyobj)
    : M (list pyobj) :=
  match items with
  | [] => mret summary
  | test_case :: rest =>
      name ← lift (getitem test_case (py "name"));
      uniform_input ← lift (getitem test_case (py "uniform_input"));
      expected_output ← lift (getitem test_case (py "expected_output"));
      tolerance ← lift (getitem test_case (py "tolerance"));
      notes ← lift (getitem test_case (py "notes"));
      let input_file := input_file_name idx in
      let input_data := PDict [(py "uniform", uniform_input)] in
      _ ← dump_to input_file input_data;
      let expected_file := expected_file_name idx in
      let expected_data :=
        PDict [(py "expected_output", expected_output);
               (py "tolerance", tolerance);
               (py "name", name);
               (py "notes", notes)] in
      _ ← dump_to expected_file expected_data;
      let summary :=
        summary ++ [PDict [(py "case", PInt idx);
                           (py "name", name);
                           (py "input", uniform_input);
                           (py "expected", expected_output);
                           (py "tolerance", tolerance);
                           (py "input_file", PStr (py input_file));
                           (py "expected_file", PStr (py expected_file))]] in
      _ ← print [PInt idx; name];
      _ ← print [uniform_input; expected_output; tolerance];
      for_test_cases (idx + 1) rest summary
  end.

(** [generate_test_inputs()], statement by statement.  The summary
    dictionary is evaluated once its file is open, but nothing in it can
    raise at that point ([test_data] is a [dict] and [test_cases] has a
    length), so the file is written in one step. *)
Definition generate_test_inputs : M unit :=
  _ ← mkdir_exist_ok;
  _ ← print [];                                (* Reading test vectors from *)
  test_data ← load_test_vectors;
  test_cases ← lift (getitem test_data (py "test_cases"));
  found ← lift (py_len test_cases);
  _ ← print [PInt found];                      (* Found ... test cases *)
  _ ← print [];
  items ← lift (py_iter test_cases);
  summary ← for_test_cases 1 items [];
  total_cases ← lift (py_len test_cases);
  bulk_validation ←
    lift (dict_get test_data (py "bulk_validation") (PDict []));
  _ ← dump_to summary_file_name
        (PDict [(py "description",
                 PStr (py "Summary of all CIRCOM test cases"));
                (py "total_cases", PInt total_cases);
                (py "bulk_validation", bulk_validation);
                (py "test_cases", PList summary)]);
  _ ← print [];
  _ ← print [];                                (* Generated summary *)
  _ ← print [];
  _ ← print [];                                (* ====== *)
  _ ← print [];                                (* Complete! *)
  _ ← print [];                                (* ====== *)
  generated ← lift (py_len test_cases);
  _ ← print [PInt generated];                  (* Generated ... test cases *)
  _ ← print [];
  _ ← print [];                                (* Files created: *)
  _ ← print_created_files;
  _ ← print [];
  _ ← print [];                                (* Next steps: *)
  _ ← print [];                                (* 1. Implement *)
  _ ← print [];                                (* 2. Compile *)
  print [].                                    (* 3. Test *)

(** A run of the script, from a source file and a state of the output
    directory. *)
Definition run (src : source) (dir : option (gmap string string))
    : result unit * world :=
  generate_test_inputs (World src dir []).

(** ** Source documents *)

Definition required_fields : list str :=
  [py "name"; py "uniform_input"; py "expected_output"; py "tolerance";
   py "notes"].

Definition has_field (c : pyobj) (k : str) : bool :=
  match c with
  | PDict kvs => bool_decide (is_Some (dict_lookup k kvs))
  | _ => false
  end.

(** A test-case record with its five fields. *)
Definition complete_case (c : pyobj) : bool :=
  forallb (has_field c) required_fields.

(** The test cases of a document whose [test_cases] is an array. *)
Definition test_cases_of (doc : pyobj) : option (list pyobj) :=
  match doc with
  | PDict kvs =>
      match dict_lookup (py "test_cases") kvs with
      | Some (PList cases) => Some cases
      | _ => None
      end
  | _ => None
  end.

(** A valid source document: an object whose [test_cases] is an array of
    complete records.  The types of the fields are not looked at, as the
    script does not look at them either. *)
Definition valid_document (doc : pyobj) : bool :=
  match test_cases_of doc with
  | Some cases => forallb complete_case cases
  | None => false
  end.

(** Field [k] of a record ([None] of Python where it is missing). *)
Definition field (k : string) (c : pyobj) : pyobj :=
  match c with
  | PDict kvs => default PNone (dict_lookup (py k) kvs)
  | _ => PNone
  end.

(** Whether the two messages that end the iteration on a record can be
    printed: they show its [name], [uniform_input], [expected_output] and
    [tolerance]. *)
Definition printable_case (c : pyobj) : bool :=
  forallb console_can_print
    [field "name" c; field "uniform_input" c; field "expected_output" c;
     field "tolerance" c].

(** ** What a run is expected to leave behind *)

(** The directory after the files [ws] were written, in that order. *)
Definition write_all (ws : list (string * string))
    (files : gmap string string) : gmap string string :=
  foldl (λ m f, <[f.1 := f.2]> m) files ws.

Definition input_fixture (c : pyobj) : pyobj :=
  PDict [(py "uniform", field "uniform_input" c)].

Definition expected_fixture (c : pyobj) : pyobj :=
  PDict [(py "expected_output", field "expected_output" c);
         (py "tolerance", field "tolerance" c);
         (py "name", field "name" c);
         (py "notes", field "notes" c)].

Definition summary_entry (idx : Z) (c : pyobj) : pyobj :=
  PDict [(py "case", PInt idx);
         (py "name", field "name" c);
         (py "input", field "uniform_input" c);
         (py "expected", field "expected_output" c);
         (py "tolerance", field "tolerance" c);
         (py "input_file", PStr (py (input_file_name idx)));
         (py "expected_file", PStr (py (expected_file_name idx)))].

(** The fixture pairs of the records [cs], numbered from [idx]. *)
Fixpoint fixture_files (idx : Z) (cs : list pyobj) : list (string * string) :=
  match cs with
  | [] => []
  | c :: rest =>
      (input_file_name idx, json_dumps (input_fixture c))
        :: (expected_file_name idx, json_dumps (expected_fixture c))
        :: fixture_files (idx + 1) rest
  end.

Fixpoint summary_entries (idx : Z) (cs : list pyobj) : list pyobj :=
  match cs with
  | [] => []
  | c :: rest => summary_entry idx c :: summary_entries (idx + 1) rest
  end.

(** The auxiliary record of a document, the empty mapping where it has
    none. *)
Definition bulk_validation_of (doc : pyobj) : pyobj :=
  match doc with
  | PDict kvs => default (PDict []) (dict_lookup (py "bulk_validation") kvs)
  | _ => PDict []
  end.

Definition summary_document (doc : pyobj) (cs : list pyobj) : pyobj :=
  PDict [(py "description", PStr (py "Summary of all CIRCOM test cases"));
         (py "total_cases", PInt (Z.of_nat (length cs)));
         (py "bulk_validation", bulk_validation_of doc);
         (py "test_cases", PList (summary_entries 1 cs))].

(** The first required field a record lacks. *)
Definition first_missing_field (c : pyobj) : option str :=
  List.find (λ k, negb (has_field c k)) required_fields.

(** A computation that only writes files: from a world whose directory
    exists, its result and the files it writes depend on the source file
    alone. *)
Definition write_only {A : Type} (m : M A) : Prop :=
  ∀ src : source, ∃ (r : result A) (ws : list (string * string)),
    ∀ (w : world) (files : gmap string string),
      test_vectors_file w = src →
      test_dir w = Some files →
      m w = (r, World src (Some (write_all ws files)) (written w ++ ws)).

(** ** Sample source documents *)

Definition test_case (name : string) (uniform_input expected_output
    tolerance : pyobj) (notes : string) : pyobj :=
  PDict [(py "name", PStr (py name));
         (py "uniform_input", uniform_input);
         (py "expected_output", expected_output);
         (py "tolerance", tolerance);
         (py "notes", PStr (py notes))].

Definition case_zero : pyobj :=
  test_case "zero" (PInt 0) (PFloat "0.5") (PFloat "0.01") "midpoint".

Definition case_low : pyobj :=
  test_case "a_low" (PFloat "0.1") (PFloat "0.25") (PFloat "0.01") EmptyString.

(** The record of [case_low] with its [tolerance] left out. *)
Definition case_without_tolerance : pyobj :=
  PDict [(py "name", PStr (py "broken"));
         (py "uniform_input", PFloat "0.9");
         (py "expected_output", PFloat "0.75");
         (py "notes", PStr (py "no tolerance"))].

Definition one_case_document : pyobj :=
  PDict [(py "test_cases", PList [case_zero])].

Definition two_case_document : pyobj :=
  PDict [(py "test_cases", PList [case_zero; case_low]);
         (py "bulk_validation", PDict [(py "num_samples", PInt 1000)])].

Definition no_case_document : pyobj :=
  PDict [(py "test_cases", PList [])].

(** Five cases, the third one without [tolerance]. *)
Definition defective_document : pyobj :=
  PDict [(py "test_cases",
          PList [case_zero; case_low; case_without_tolerance; case_zero;
                 case_low])].

(** The fields of [case_low] in another order, with one more key. *)
Definition case_low_reordered : pyobj :=
  PDict [(py "notes", PStr (py EmptyString));
         (py "tolerance", PFloat "0.01");
         (py "comment", PNone);
         (py "expected_output", PFloat "0.25");
         (py "uniform_input", PFloat "0.1");
         (py "name", PStr (py "a_low"))].

Definition three_case_document : pyobj :=
  PDict [(py "test_cases", PList [case_low; case_low_reordered; case_zero])].

(** ** Runs on any source file *)

(** What the loop runs through, or the exception raised before the loop is
    reached: opening and parsing the source file, [test_data['test_cases']]
    and [len(test_cases)]. *)
Definition loaded_items (src : source) : result (list pyobj) :=
  match src with
  | Absent => Raise FileNotFoundError
  | NotJSON => Raise JSONDecodeError
  | Unreadable e => Raise e
  | Document test_data =>
      match getitem test_data (py "test_cases") with
      | Ok test_cases =>
          match py_len test_cases with
          | Ok _ => py_iter test_cases
          | Raise e => Raise e
          end
      | Raise e => Raise e
      end
  end.

(** The exception the five field reads raise on an item, if any. *)
Definition case_error (c : pyobj) : option exn :=
  match c with
  | PDict _ => KeyError <$> first_missing_field c
  | _ => Some TypeError
  end.

(** The exception that ends the loop early, if any: that of the field
    reads on the first item that is not a complete record, or that of the
    messages on the first complete record that cannot be printed. *)
Fixpoint loop_error (items : list pyobj) : option exn :=
  match items with
  | [] => None
  | c :: rest =>
      if complete_case c then
        if printable_case c then loop_error rest else Some UnicodeEncodeError
      else case_error c
  end.

(** The items whose fixture pair is written: the complete records met
    before the loop ends, the one whose messages cannot be printed
    included. *)
Fixpoint complete_prefix (items : list pyobj) : list pyobj :=
  match items with
  | [] => []
  | c :: rest =>
      if complete_case c then
        c :: (if printable_case c then complete_prefix rest else [])
      else []
  end.

(** The test cases of a document are under an object, not in an array. *)
Definition keyed_cases_document : pyobj :=
  PDict [(py "test_cases", PDict [(py "zero", case_zero)])].

Definition empty_object_cases_document : pyobj :=
  PDict [(py "test_cases", PDict [])].

(** The second of three items is a number. *)
Definition number_among_cases_document : pyobj :=
  PDict [(py "test_cases", PList [case_zero; PInt 7; case_low])].

(** A record whose [name] is the lone surrogate U+D800, as [json.load]
    reads it from the JSON text ["\ud800"]. *)
Definition case_surrogate_name : pyobj :=
  PDict [(py "name", PStr [55296%N]);
         (py "uniform_input", PFloat "0.5");
         (py "expected_output", PFloat "0.5");
         (py "tolerance", PFloat "0.01");
         (py "notes", PStr (py "unpaired surrogate"))].

Definition surrogate_name_document : pyobj :=
  PDict [(py "test_cases", PList [case_surrogate_name; case_low]);
         (py "bulk_validation", PDict [(py "num_samples", PInt 1000)])].

(** * Properties *)

Example json_dumps_input_fixture :
  json_dumps (PDict [(py "uniform", PInt 0)])
  = "{" +:+ newline +:+ "  " +:+ String (ascii_of_N 34) "uniform"
        +:+ String (ascii_of_N 34) ": 0" +:+ newline +:+ "}".
Proof. reflexivity. Qed.

Example json_dumps_escapes :
  encode_basestring_ascii [233%N; 10%N; 128512%N; 126%N; 127%N]
  = String (ascii_of_N 34) "\u00e9\n\ud83d\ude00~\u007f"
    +:+ String (ascii_of_N 34) EmptyString.
Proof. reflexivity. Qed.

(** The example of the specification: one case named [zero]. *)
Example run_one_case_document :
  let out := run (Document one_case_document) None in
  out.1 = Ok tt
  ∧ (written out.2).*1
    = ["input_case1.json"; "expected_case1.json"; "test_summary.json"]
  ∧ (test_dir out.2 ≫= (.!! "input_case1.json"))
    = Some (json_dumps (PDict [(py "uniform", PInt 0)]))
  ∧ (test_dir out.2 ≫= (.!! "expected_case1.json"))
    = Some (json_dumps (PDict [(py "expected_output", PFloat "0.5");
                               (py "tolerance", PFloat "0.01");
                               (py "name", PStr (py "zero"));
                               (py "notes", PStr (py "midpoint"))])).
Proof. repeat split. Qed.

(** A source file that is not JSON stops the run once the directory
    exists. *)
Example run_not_json :
  run NotJSON None = (Raise JSONDecodeError, World NotJSON (Some ∅) []).
Proof. reflexivity. Qed.

(** A document without [test_cases], and one whose [test_cases] holds
    something that is not a record. *)
Example run_without_test_cases :
  (run (Document (PDict [])) None).1 = Raise (KeyError (py "test_cases"))
  ∧ (run (Document (PDict [(py "test_cases", PList [PInt 1])])) None).1
    = Raise TypeError.
Proof. split; reflexivity. Qed.

(** ** File names *)

Section FileNames.

Lemma list_ascii_of_string_app (s t : string) :
  String.list_ascii_of_string (s +:+ t)
  = String.list_ascii_of_string s ++ String.list_ascii_of_string t.
Proof. induction s as [|a s IH]; simpl; [done | by rewrite IH]. Qed.

Lemma string_app_inv_tail (s1 s2 t : string) :
  s1 +:+ t = s2 +:+ t → s1 = s2.
Proof.
  intros H%(f_equal String.list_ascii_of_string).
  rewrite !list_ascii_of_string_app in H.
  apply app_inv_tail in H.
  rewrite <- (String.string_of_list_ascii_of_string s1),
          <- (String.string_of_list_ascii_of_string s2).
  by rewrite H.
Qed.

(** Distinct integers print differently: the text parses back. *)
Lemma int_repr_inj (a b : Z) : int_repr a = int_repr b → a = b.
Proof.
  unfold int_repr. intros H%(f_equal NilEmpty.int_of_string).
  rewrite !NilEmpty.isi in H. injection H as H.
  by apply DecimalZ.to_int_inj.
Qed.

Lemma input_file_name_inj (i j : Z) :
  input_file_name i = input_file_name j → i = j.
Proof.
  unfold input_file_name. intros H%String.app_inj%string_app_inv_tail.
  by apply int_repr_inj.
Qed.

Lemma expected_file_name_inj (i j : Z) :
  expected_file_name i = expected_file_name j → i = j.
Proof.
  unfold expected_file_name. intros H%String.app_inj%string_app_inv_tail.
  by apply int_repr_inj.
Qed.

Lemma input_expected_file_name_ne (i j : Z) :
  input_file_name i ≠ expected_file_name j.
Proof. unfold input_file_name, expected_file_name. discriminate. Qed.

Lemma input_summary_file_name_ne (i : Z) :
  input_file_name i ≠ summary_file_name.
Proof.
  unfold input_file_name, summary_file_name. discriminate.
Qed.

Lemma expected_summary_file_name_ne (i : Z) :
  expected_file_name i ≠ summary_file_name.
Proof.
  unfold expected_file_name, summary_file_name. discriminate.
Qed.

End FileNames.

(** ** Running the monad *)

Section Monad.

Lemma bind_eq {A B : Type} (m : M A) (f : A → M B) (w : world) :
  (m ≫= f) w
  = match m w with
    | (Ok a, w') => f a w'
    | (Raise e, w') => (Raise e, w')
    end.
Proof. reflexivity. Qed.

Lemma bind_lift_ok {A B : Type} (a : A) (f : A → M B) (w : world) :
  (lift (Ok a) ≫= f) w = f a w.
Proof. reflexivity. Qed.

Lemma bind_lift_raise {A B : Type} (e : exn) (f : A → M B) (w : world) :
  (lift (Raise e) ≫= f) w = (Raise e, w).
Proof. reflexivity. Qed.

Lemma dump_to_eq (name : string) (data : pyobj) (w : world)
    (files : gmap string string) :
  test_dir w = Some files →
  dump_to name data w
  = (Ok tt, World (test_vectors_file w)
                  (Some (<[name := json_dumps data]> files))
                  (written w ++ [(name, json_dumps data)])).
Proof. unfold dump_to. by intros ->. Qed.

Lemma bind_print_ok {A : Type} (values : list pyobj) (f : unit → M A)
    (w : world) :
  forallb console_can_print values = true → (print values ≫= f) w = f tt w.
Proof. intros H. rewrite bind_eq. unfold print. by rewrite H. Qed.

(** The two messages that end an iteration. *)
Lemma print_case_messages {A : Type} (c : pyobj) (idx : Z) (k : M A)
    (w : world) :
  (_ ← print [PInt idx; field "name" c];
   _ ← print [field "uniform_input" c; field "expected_output" c;
              field "tolerance" c];
   k) w
  = if printable_case c then k w else (Raise UnicodeEncodeError, w).
Proof.
  rewrite !bind_eq. unfold print, printable_case. cbn [forallb].
  cbn [console_can_print].
  destruct (console_can_print (field "name" c)); [|done].
  cbn [andb].
  by destruct (console_can_print (field "uniform_input" c)),
    (console_can_print (field "expected_output" c)),
    (console_can_print (field "tolerance" c)).
Qed.

(** File names are text the console can encode. *)
Lemma console_can_print_py (s : string) :
  console_can_print (PStr (py s)) = true.
Proof.
  unfold py. cbn [console_can_print]. apply forallb_forall.
  intros c [a [-> _]]%list_elem_of_In%list_elem_of_fmap.
  unfold is_surrogate. apply negb_true_iff, andb_false_iff. left.
  apply N.leb_gt. pose proof (N_ascii_bounded a). lia.
Qed.

Lemma print_created_files_ok (w : world) (files : gmap string string) :
  test_dir w = Some files → print_created_files w = (Ok tt, w).
Proof.
  unfold print_created_files. intros ->.
  induction (merge_sort String.le (elements (dom files))) as [|item items IH];
    [done|].
  cbn [foldr]. rewrite bind_print_ok; [done|].
  cbn [forallb]. by rewrite console_can_print_py.
Qed.

End Monad.

(** ** Records *)

Section Records.

Lemma has_field_getitem (c : pyobj) (k : string) :
  has_field c (py k) = true → getitem c (py k) = Ok (field k c).
Proof.
  destruct c as [| | | | | |kvs]; simpl; try discriminate.
  intros [v Hv]%bool_decide_eq_true. by rewrite Hv.
Qed.

Lemma complete_case_fields (c : pyobj) :
  complete_case c = true →
  getitem c (py "name") = Ok (field "name" c)
  ∧ getitem c (py "uniform_input") = Ok (field "uniform_input" c)
  ∧ getitem c (py "expected_output") = Ok (field "expected_output" c)
  ∧ getitem c (py "tolerance") = Ok (field "tolerance" c)
  ∧ getitem c (py "notes") = Ok (field "notes" c).
Proof.
  unfold complete_case, required_fields. cbn [forallb].
  rewrite !andb_true_iff. intros (? & ? & ? & ? & ? & _).
  repeat split; by apply has_field_getitem.
Qed.

Lemma missing_field_getitem (kvs : list (str * pyobj)) (k : str) :
  has_field (PDict kvs) k = false →
  getitem (PDict kvs) k = Raise (KeyError k).
Proof.
  simpl. intros H%bool_decide_eq_false.
  destruct (dict_lookup k kvs) eqn:E; [|done]. destruct H. by eexists.
Qed.

Lemma complete_case_error (c : pyobj) :
  complete_case c = false → ∃ e : exn, case_error c = Some e.
Proof.
  intros Hc. destruct c as [| | | | | |kvs]; try (by eexists).
  unfold case_error, first_missing_field.
  destruct (find _ required_fields) as [k|] eqn:Hfind; [by eexists|].
  exfalso. unfold complete_case in Hc.
  apply not_true_iff_false in Hc. apply Hc, forallb_forall. intros k Hk.
  apply (find_none _ _ Hfind) in Hk. by apply negb_false_iff in Hk.
Qed.

Lemma complete_case_no_error (c : pyobj) :
  complete_case c = true → case_error c = None.
Proof.
  intros Hc. destruct c as [| | | | | |kvs]; try discriminate.
  unfold case_error, first_missing_field.
  destruct (find _ required_fields) as [k|] eqn:Hfind; [|done].
  apply find_some in Hfind as [Hk Hmiss].
  unfold complete_case in Hc. rewrite forallb_forall in Hc.
  apply Hc in Hk. by rewrite Hk in Hmiss.
Qed.

End Records.

(** ** The loop *)

Section Loop.

Implicit Types (items cs : list pyobj).

(** Over complete records the loop writes their fixture pairs and appends
    their summary entries, then goes on with what is left. *)
Lemma for_test_cases_complete (pre rest : list pyobj) :
  forallb complete_case pre = true →
  forallb printable_case pre = true →
  ∀ (idx : Z) (summary : list pyobj) (w : world) (files : gmap string string),
    test_dir w = Some files →
    for_test_cases idx (pre ++ rest) summary w
    = for_test_cases (idx + Z.of_nat (length pre)) rest
        (summary ++ summary_entries idx pre)
        (World (test_vectors_file w)
               (Some (write_all (fixture_files idx pre) files))
               (written w ++ fixture_files idx pre)).
Proof.
  induction pre as [|c pre IH]; intros Hpre Hprint idx summary w files Hdir.
  - simpl. rewrite Z.add_0_r, !app_nil_r. destruct w; simpl in *. by subst.
  - cbn [forallb] in Hpre, Hprint.
    apply andb_true_iff in Hpre as [Hc Hpre].
    apply andb_true_iff in Hprint as [Hp Hprint].
    destruct (complete_case_fields c Hc) as (Hn & Hu & He & Ht & Ho).
    cbn [app for_test_cases].
    rewrite Hn, bind_lift_ok, Hu, bind_lift_ok, He, bind_lift_ok,
      Ht, bind_lift_ok, Ho, bind_lift_ok.
    rewrite bind_eq, (dump_to_eq _ _ w files Hdir).
    rewrite bind_eq. erewrite dump_to_eq by reflexivity.
    cbn [test_vectors_file written].
    rewrite print_case_messages, Hp.
    erewrite (IH Hpre Hprint) by reflexivity.
    cbn [test_vectors_file written].
    f_equal.
    + rewrite length_cons. lia.
    + by rewrite <- app_assoc.
    + cbn [fixture_files]. f_equal. by rewrite <- !app_assoc.
Qed.

(** The loop stops at a record that lacks a field, before writing
    anything for it. *)
Lemma for_test_cases_missing_field (kvs : list (str * pyobj)) (k : str)
    (rest summary : list pyobj) (idx : Z) (w : world) :
  first_missing_field (PDict kvs) = Some k →
  for_test_cases idx (PDict kvs :: rest) summary w = (Raise (KeyError k), w).
Proof.
  unfold first_missing_field, required_fields. cbn [find].
  cbn [for_test_cases].
  repeat match goal with
  | |- context [negb (has_field (PDict kvs) (py ?f))] =>
      let H := fresh "H" in
      destruct (has_field (PDict kvs) (py f)) eqn:H; cbn [negb];
        [rewrite (has_field_getitem _ _ H), bind_lift_ok
        |intros [= <-];
         by rewrite (missing_field_getitem _ _ H), bind_lift_raise]
  end.
  discriminate.
Qed.

(** An item that is not a complete record ends the loop where it stands. *)
Lemma for_test_cases_case_error (c : pyobj) (e : exn)
    (rest summary : list pyobj) (idx : Z) (w : world) :
  complete_case c = false →
  case_error c = Some e →
  for_test_cases idx (c :: rest) summary w = (Raise e, w).
Proof.
  intros Hc He. destruct c as [| | | | | |kvs];
    try (injection He as <-; reflexivity).
  unfold case_error in He.
  destruct (first_missing_field (PDict kvs)) as [k|] eqn:Hk; [|done].
  injection He as <-. by apply for_test_cases_missing_field.
Qed.

(** On a complete record whose messages cannot be printed the loop stops
    once the pair of that record is written. *)
Lemma for_test_cases_unprintable (c : pyobj) (rest summary : list pyobj)
    (idx : Z) (w : world) (files : gmap string string) :
  complete_case c = true →
  printable_case c = false →
  test_dir w = Some files →
  for_test_cases idx (c :: rest) summary w
  = (Raise UnicodeEncodeError,
     World (test_vectors_file w)
           (Some (write_all (fixture_files idx [c]) files))
           (written w ++ fixture_files idx [c])).
Proof.
  intros Hc Hp Hdir.
  destruct (complete_case_fields c Hc) as (Hn & Hu & He & Ht & Ho).
  cbn [for_test_cases].
  rewrite Hn, bind_lift_ok, Hu, bind_lift_ok, He, bind_lift_ok,
    Ht, bind_lift_ok, Ho, bind_lift_ok.
  rewrite bind_eq, (dump_to_eq _ _ w files Hdir).
  rewrite bind_eq. erewrite dump_to_eq by reflexivity.
  cbn [test_vectors_file written].
  rewrite print_case_messages, Hp. cbn [fixture_files].
  by rewrite <- app_assoc.
Qed.

Lemma loop_error_None items :
  loop_error items = None
  ↔ forallb complete_case items = true
    ∧ forallb printable_case items = true.
Proof.
  induction items as [|c items IH]; [done|]. cbn [loop_error forallb].
  destruct (complete_case c) eqn:Hc; [destruct (printable_case c) eqn:Hp|].
  - by rewrite IH.
  - split; [discriminate | by intros [_ ?]].
  - destruct (complete_case_error c Hc) as [e ->].
    split; [discriminate | by intros [? _]].
Qed.

Lemma complete_prefix_all items :
  forallb complete_case items = true →
  forallb printable_case items = true →
  complete_prefix items = items.
Proof.
  induction items as [|c items IH]; [done|]. cbn [forallb complete_prefix].
  intros [-> Hall]%andb_true_iff [-> Hprint]%andb_true_iff. by rewrite IH.
Qed.

(** The loop reaches a record when the records before it are complete and
    their messages can be printed. *)
Lemma complete_prefix_lookup cs (n : nat) (c : pyobj) :
  forallb complete_case cs = true →
  forallb printable_case (take n cs) = true →
  cs !! n = Some c →
  complete_prefix cs !! n = Some c.
Proof.
  revert n. induction cs as [|c' cs IH]; intros n Hall Hprint Hn; [done|].
  cbn [forallb] in Hall. apply andb_true_iff in Hall as [Hc Hall].
  cbn [complete_prefix]. rewrite Hc. destruct n as [|n]; [done|].
  cbn [take forallb] in Hprint.
  apply andb_true_iff in Hprint as [Hp Hprint]. rewrite Hp.
  by apply IH.
Qed.


(** The loop writes the pairs of the records it gets through, and ends
    with the exception of the item it stops at, if there is one. *)
Lemma for_test_cases_any items :
  ∀ (idx : Z) (summary : list pyobj) (w : world) (files : gmap string string),
    test_dir w = Some files →
    for_test_cases idx items summary w
    = (match loop_error items with
       | None => Ok (summary ++ summary_entries idx items)
       | Some e => Raise e
       end,
       World (test_vectors_file w)
             (Some (write_all (fixture_files idx (complete_prefix items)) files))
             (written w ++ fixture_files idx (complete_prefix items))).
Proof.
  induction items as [|c items IH]; intros idx summary w files Hdir.
  - cbn. rewrite !app_nil_r. destruct w; simpl in *. by subst.
  - cbn [loop_error complete_prefix]. destruct (complete_case c) eqn:Hc.
    + destruct (printable_case c) eqn:Hp.
      * change (c :: items) with ([c] ++ items).
        assert (Hpre : forallb complete_case [c] = true)
          by (cbn [forallb]; by rewrite Hc).
        assert (Hprint : forallb printable_case [c] = true)
          by (cbn [forallb]; by rewrite Hp).
        rewrite (for_test_cases_complete [c] items Hpre Hprint
                   idx summary w files Hdir).
        erewrite IH by reflexivity. cbn [test_vectors_file written length].
        replace (idx + Z.of_nat 1) with (idx + 1) by lia.
        cbn [summary_entries fixture_files app].
        destruct (loop_error items); f_equal; f_equal;
          by rewrite <- ?app_assoc.
      * by rewrite (for_test_cases_unprintable c items summary idx w files
                      Hc Hp Hdir).
    + destruct (complete_case_error c Hc) as [e He]. rewrite He.
      rewrite (for_test_cases_case_error c e _ _ _ _ Hc He).
      cbn. rewrite app_nil_r. destruct w; simpl in *. by subst.
Qed.

End Loop.

(** ** Writing files into the directory *)

Section WriteAll.

Implicit Types (ws : list (string * string)) (files : gmap string string).

Lemma write_all_app ws1 ws2 files :
  write_all (ws1 ++ ws2) files = write_all ws2 (write_all ws1 files).
Proof. apply foldl_app. Qed.

Lemma write_all_snoc ws name content files :
  write_all (ws ++ [(name, content)]) files
  = <[name := content]> (write_all ws files).
Proof. by rewrite write_all_app. Qed.

(** Later writes win. *)
Lemma write_all_union ws files :
  write_all ws files = list_to_map (reverse ws) ∪ files.
Proof.
  revert files. induction ws as [|[name content] ws IH]; intros files.
  - simpl. by rewrite (left_id_L ∅ (∪)).
  - rewrite reverse_cons, list_to_map_app. simpl.
    change (write_all ws (<[name := content]> files)
            = list_to_map (reverse ws) ∪ <[name := content]> ∅ ∪ files).
    rewrite IH, <- (assoc_L (∪)). f_equal.
    by rewrite insert_union_singleton_l, insert_empty.
Qed.

Lemma write_all_idemp ws files :
  write_all ws (write_all ws files) = write_all ws files.
Proof.
  rewrite !write_all_union, (assoc_L (∪)). f_equal. apply (idemp_L (∪)).
Qed.

Lemma write_all_lookup_other ws files name :
  name ∉ ws.*1 → write_all ws files !! name = files !! name.
Proof.
  revert files. induction ws as [|[n c] ws IH]; intros files Hn; [done|].
  rewrite fmap_cons in Hn. apply not_elem_of_cons in Hn as [Hne Hn].
  simpl. change (write_all ws (<[n := c]> files) !! name = files !! name).
  rewrite IH by done. by apply lookup_insert_ne.
Qed.

Lemma dom_write_all ws files :
  dom (write_all ws files) = list_to_set ws.*1 ∪ dom files.
Proof.
  revert files. induction ws as [|[n c] ws IH]; intros files.
  - simpl. set_solver.
  - simpl. change (dom (write_all ws (<[n := c]> files))
                   = {[n]} ∪ list_to_set ws.*1 ∪ dom files).
    rewrite IH, dom_insert_L. set_solver.
Qed.

Lemma elem_of_write_all (ws : list (string * string))
    (files : gmap string string) (name content : string) :
  write_all ws files !! name = Some content →
  files !! name = Some content ∨ (name, content) ∈ ws.
Proof.
  revert files. induction ws as [|[n c] ws IH]; intros files; [by left|].
  simpl.
  change (write_all ws (<[n := c]> files) !! name = Some content
          → files !! name = Some content
            ∨ (name, content) ∈ (n, c) :: ws).
  intros [Hin|Hin]%IH.
  - destruct (decide (n = name)) as [->|Hne].
    + rewrite lookup_insert_eq in Hin. injection Hin as ->.
      right. apply list_elem_of_here.
    + rewrite lookup_insert_ne in Hin by done. by left.
  - right. by apply list_elem_of_further.
Qed.

(** Writing a superset of names afterwards hides what was written before. *)
Lemma write_all_absorb (ws1 ws2 : list (string * string))
    (files : gmap string string) :
  (∀ name, name ∈ ws1.*1 → name ∈ ws2.*1) →
  write_all ws2 (write_all ws1 files) = write_all ws2 files.
Proof.
  intros Hsub. apply map_eq. intros name.
  destruct (decide (name ∈ ws2.*1)) as [Hin|Hout].
  - rewrite !(write_all_union ws2).
    assert (is_Some (list_to_map (M := gmap string string) (reverse ws2)
                       !! name)) as [c Hc].
    { apply (elem_of_dom (D := gset string)).
      rewrite dom_list_to_map_L, fmap_reverse.
      by apply elem_of_list_to_set, elem_of_reverse. }
    by rewrite !(lookup_union_Some_l _ _ _ _ Hc).
  - assert (Hout1 : name ∉ ws1.*1) by (intros Hin; by apply Hout, Hsub).
    by rewrite (write_all_lookup_other ws2), (write_all_lookup_other ws1),
      (write_all_lookup_other ws2).
Qed.

End WriteAll.

(** ** The script only writes *)

Section WriteOnly.

Lemma write_only_lift {A : Type} (r : result A) : write_only (lift r).
Proof.
  intros src. exists r, []. intros [s d t] files; simpl; intros -> ->.
  by rewrite app_nil_r.
Qed.

Lemma write_only_ret {A : Type} (a : A) : write_only (mret a : M A).
Proof. apply (write_only_lift (Ok a)). Qed.

Lemma write_only_mkdir : write_only mkdir_exist_ok.
Proof.
  intros src. exists (Ok tt), []. intros [s d t] files; simpl; intros -> ->.
  unfold mkdir_exist_ok; simpl. by rewrite app_nil_r.
Qed.

Lemma write_only_load : write_only load_test_vectors.
Proof.
  intros src.
  exists (match src with
          | Absent => Raise FileNotFoundError
          | NotJSON => Raise JSONDecodeError
          | Unreadable e => Raise e
          | Document test_data => Ok test_data
          end), [].
  intros [s d t] files; simpl; intros -> ->.
  unfold load_test_vectors; simpl. rewrite app_nil_r. by destruct src.
Qed.

Lemma write_only_print (values : list pyobj) : write_only (print values).
Proof.
  intros src.
  exists (if forallb console_can_print values then Ok tt
          else Raise UnicodeEncodeError), [].
  intros [s d t] files; simpl; intros -> ->.
  unfold print. rewrite app_nil_r. by destruct (forallb _ values).
Qed.

Lemma write_only_print_created_files : write_only print_created_files.
Proof.
  intros src. exists (Ok tt), []. intros [s d t] files; simpl; intros -> ->.
  erewrite print_created_files_ok by reflexivity. by rewrite app_nil_r.
Qed.

Lemma write_only_dump_to (name : string) (data : pyobj) :
  write_only (dump_to name data).
Proof.
  intros src. exists (Ok tt), [(name, json_dumps data)].
  intros [s d t] files; simpl; intros -> ->. done.
Qed.

Lemma write_only_bind {A B : Type} (m : M A) (f : A → M B) :
  write_only m → (∀ a, write_only (f a)) → write_only (m ≫= f).
Proof.
  intros Hm Hf src. destruct (Hm src) as (r & ws & Hrun).
  destruct r as [a|e].
  - destruct (Hf a src) as (r' & ws' & Hrun').
    exists r', (ws ++ ws'). intros w files Hsrc Hdir.
    rewrite bind_eq, (Hrun w files Hsrc Hdir).
    erewrite Hrun' by reflexivity. simpl.
    by rewrite write_all_app, app_assoc.
  - exists (Raise e), ws. intros w files Hsrc Hdir.
    by rewrite bind_eq, (Hrun w files Hsrc Hdir).
Qed.

Lemma write_only_for_test_cases (items : list pyobj) :
  ∀ (idx : Z) (summary : list pyobj),
    write_only (for_test_cases idx items summary).
Proof.
  induction items as [|test_case rest IH]; intros idx summary.
  - apply write_only_ret.
  - cbn [for_test_cases].
    repeat (apply write_only_bind;
            [first [apply write_only_lift | apply write_only_dump_to
                   | apply write_only_print]
            |intros ?]).
    apply IH.
Qed.

Lemma write_only_generate_test_inputs : write_only generate_test_inputs.
Proof.
  unfold generate_test_inputs.
  repeat (apply write_only_bind;
          [first [apply write_only_mkdir | apply write_only_load
                 | apply write_only_lift | apply write_only_print
                 | apply write_only_for_test_cases | apply write_only_dump_to
                 | apply write_only_print_created_files]
          |intros ?]).
  apply write_only_print.
Qed.

End WriteOnly.

(** ** The fixture files of a sequence of records *)

Section FixtureFiles.

Implicit Types (cs : list pyobj) (idx : Z).

Lemma length_fixture_files cs idx :
  length (fixture_files idx cs) = (2 * length cs)%nat.
Proof.
  revert idx. induction cs as [|c cs IH]; intros idx; [done|].
  cbn [fixture_files length]. rewrite IH. lia.
Qed.

Lemma length_summary_entries cs idx :
  length (summary_entries idx cs) = length cs.
Proof.
  revert idx. induction cs as [|c cs IH]; intros idx; [done|].
  cbn [summary_entries length]. by rewrite IH.
Qed.

(** The names written for [cs] are those of the case numbers from [idx]
    up to [idx + length cs - 1]. *)
Lemma elem_of_fixture_names cs idx (name : string) :
  name ∈ (fixture_files idx cs).*1
  ↔ ∃ i : Z, idx ≤ i < idx + Z.of_nat (length cs)
      ∧ (name = input_file_name i ∨ name = expected_file_name i).
Proof.
  revert idx. induction cs as [|c cs IH]; intros idx.
  - simpl. split; [by intros ?%elem_of_nil | intros (i & ? & _); lia].
  - cbn [fixture_files fmap list_fmap fst]. rewrite !elem_of_cons, IH.
    rewrite length_cons. split.
    + intros [->| [->|(i & Hi & Hname)]].
      * exists idx. split; [lia | by left].
      * exists idx. split; [lia | by right].
      * exists i. split; [lia | done].
    + intros (i & Hi & Hname).
      destruct (decide (i = idx)) as [->|Hne].
      * destruct Hname; [by left | right; by left].
      * right; right. exists i. split; [lia | done].
Qed.

Lemma NoDup_fixture_names cs idx : NoDup (fixture_files idx cs).*1.
Proof.
  revert idx. induction cs as [|c cs IH]; intros idx; [constructor|].
  cbn [fixture_files fmap list_fmap fst].
  apply NoDup_cons. split; [|apply NoDup_cons; split; [|apply IH]].
  - rewrite elem_of_cons. intros [Hne|Hin].
    + by apply input_expected_file_name_ne in Hne.
    + apply elem_of_fixture_names in Hin as (i & Hi & [Heq|Heq]).
      * apply input_file_name_inj in Heq. lia.
      * by apply input_expected_file_name_ne in Heq.
  - intros (i & Hi & [Heq|Heq])%elem_of_fixture_names.
    + symmetry in Heq. by apply input_expected_file_name_ne in Heq.
    + apply expected_file_name_inj in Heq. lia.
Qed.

Lemma summary_not_fixture_name cs idx :
  summary_file_name ∉ (fixture_files idx cs).*1.
Proof.
  intros (i & _ & [Heq|Heq])%elem_of_fixture_names; symmetry in Heq.
  - by apply input_summary_file_name_ne in Heq.
  - by apply expected_summary_file_name_ne in Heq.
Qed.

(** The pair of the record at position [i] sits at positions [2 i] and
    [2 i + 1] and carries case number [idx + i]. *)
Lemma fixture_files_lookup cs idx (i : nat) (c : pyobj) :
  cs !! i = Some c →
  fixture_files idx cs !! (2 * i)%nat
    = Some (input_file_name (idx + Z.of_nat i), json_dumps (input_fixture c))
  ∧ fixture_files idx cs !! (2 * i + 1)%nat
    = Some (expected_file_name (idx + Z.of_nat i),
            json_dumps (expected_fixture c)).
Proof.
  revert idx i. induction cs as [|c' cs IH]; intros idx i Hi; [done|].
  destruct i as [|i].
  - injection Hi as ->. cbn. by rewrite Z.add_0_r.
  - cbn in Hi. destruct (IH (idx + 1) i Hi) as [H1 H2].
    replace (2 * S i)%nat with (S (S (2 * i))) by lia.
    replace (idx + Z.of_nat (S i)) with (idx + 1 + Z.of_nat i) by lia.
    cbn [fixture_files]. split; [exact H1 | exact H2].
Qed.

Lemma summary_entries_lookup cs idx (i : nat) (c : pyobj) :
  cs !! i = Some c →
  summary_entries idx cs !! i = Some (summary_entry (idx + Z.of_nat i) c).
Proof.
  revert idx i. induction cs as [|c' cs IH]; intros idx i Hi; [done|].
  destruct i as [|i].
  - injection Hi as ->. cbn. by rewrite Z.add_0_r.
  - cbn in Hi. cbn [summary_entries]. rewrite lookup_cons.
    rewrite (IH (idx + 1) i Hi). do 2 f_equal. lia.
Qed.

(** Among files with distinct names each one holds what was written. *)
Lemma write_all_lookup_NoDup (ws : list (string * string))
    (files : gmap string string) (name content : string) :
  NoDup ws.*1 → (name, content) ∈ ws →
  write_all ws files !! name = Some content.
Proof.
  intros Hnd Hin. rewrite write_all_union. apply lookup_union_Some_l.
  apply elem_of_list_to_map.
  - by rewrite fmap_reverse, reverse_Permutation.
  - by apply elem_of_reverse.
Qed.

Lemma NoDup_run_names cs idx (content : string) :
  NoDup (fixture_files idx cs ++ [(summary_file_name, content)]).*1.
Proof.
  rewrite fmap_app. apply NoDup_app. split; [apply NoDup_fixture_names|].
  split; [|apply NoDup_singleton].
  intros name Hin ->%list_elem_of_singleton.
  by apply summary_not_fixture_name in Hin.
Qed.

End FixtureFiles.
(** ** Runs *)

Section Runs.

Implicit Types (items cs : list pyobj) (dir : option (gmap string string)).

(** A missing directory is created empty, after which the run goes on as
    from an empty directory. *)
Lemma run_mkdir (src : source) (dir : option (gmap string string)) :
  run src dir = run src (Some (default ∅ dir)).
Proof. by destruct dir. Qed.

(** The result of a run and the files it writes are fixed by the source
    file. *)
Lemma run_outcome (src : source) :
  ∃ (r : result unit) (ws : list (string * string)),
    ∀ dir : option (gmap string string),
      run src dir = (r, World src (Some (write_all ws (default ∅ dir))) ws).
Proof.
  destruct (write_only_generate_test_inputs src) as (r & ws & Hrun).
  exists r, ws. intros dir. rewrite run_mkdir. unfold run.
  by erewrite Hrun by reflexivity.
Qed.

(** Files the run does not write stay as they were: a file left by an
    earlier run with more cases is still there. *)
Lemma run_keeps_other_files (src : source)
    (dir : option (gmap string string)) (name : string) :
  name ∉ (written (run src dir).2).*1 →
  test_dir (run src dir).2 ≫= (.!! name) = default ∅ dir !! name.
Proof.
  destruct (run_outcome src) as (r & ws & Hrun). rewrite (Hrun dir).
  cbn [snd written test_dir]. intros Hname.
  by apply write_all_lookup_other.
Qed.

Lemma py_iter_length (o : pyobj) items :
  py_iter o = Ok items → py_len o = Ok (Z.of_nat (length items)).
Proof.
  destruct o; try discriminate; intros [= <-]; cbn [py_len];
    by rewrite ?length_fmap.
Qed.

Lemma py_len_iter (o : pyobj) (n : Z) :
  py_len o = Ok n → ∃ items, py_iter o = Ok items.
Proof. destruct o; try discriminate; intros _; by eexists. Qed.

Lemma loaded_items_array (doc : pyobj) cs :
  test_cases_of doc = Some cs → loaded_items (Document doc) = Ok cs.
Proof.
  destruct doc as [| | | | | |kvs]; try discriminate.
  unfold test_cases_of. cbn [loaded_items getitem].
  destruct (dict_lookup (py "test_cases") kvs) as [tc|]; [|discriminate].
  destruct tc; try discriminate. by intros [= ->].
Qed.

(** A run that reaches the loop: the loop, then the summary, then the
    closing report, which writes nothing and raises nothing. *)
Lemma run_items (doc test_cases : pyobj) (n : Z) items dir :
  getitem doc (py "test_cases") = Ok test_cases →
  py_len test_cases = Ok n →
  py_iter test_cases = Ok items →
  run (Document doc) dir
  = match for_test_cases 1 items []
            (World (Document doc) (Some (default ∅ dir)) []) with
    | (Ok summary, w) =>
        dump_to summary_file_name
          (PDict [(py "description",
                   PStr (py "Summary of all CIRCOM test cases"));
                  (py "total_cases", PInt n);
                  (py "bulk_validation", bulk_validation_of doc);
                  (py "test_cases", PList summary)]) w
    | (Raise e, w) => (Raise e, w)
    end.
Proof.
  intros Htc Hlen Hitems. rewrite run_mkdir.
  destruct doc as [| | | | | |kvs]; try discriminate.
  unfold run, generate_test_inputs.
  rewrite bind_eq. cbn [mkdir_exist_ok test_dir].
  rewrite bind_print_ok by done.
  rewrite bind_eq. cbn [load_test_vectors test_vectors_file].
  rewrite Htc, bind_lift_ok, Hlen, bind_lift_ok.
  do 2 (rewrite bind_print_ok by done).
  rewrite Hitems, bind_lift_ok, bind_eq.
  destruct (write_only_for_test_cases items 1 [] (Document (PDict kvs)))
    as (r & ws & Hloop).
  erewrite Hloop by reflexivity. cbn [written app].
  destruct r as [summary|e]; [|done].
  rewrite bind_lift_ok. cbn [dict_get]. rewrite bind_lift_ok.
  rewrite bind_eq. erewrite dump_to_eq by reflexivity.
  cbn [test_vectors_file written].
  do 6 (rewrite bind_print_ok by done). rewrite bind_lift_ok.
  do 3 (rewrite bind_print_ok by done).
  rewrite bind_eq. erewrite print_created_files_ok by reflexivity.
  do 4 (rewrite bind_print_ok by done). reflexivity.
Qed.

(** A run on a document whose [test_cases] is an array. *)
Lemma run_document (doc : pyobj) cs dir :
  test_cases_of doc = Some cs →
  run (Document doc) dir
  = match for_test_cases 1 cs []
            (World (Document doc) (Some (default ∅ dir)) []) with
    | (Ok summary, w) =>
        dump_to summary_file_name
          (PDict [(py "description",
                   PStr (py "Summary of all CIRCOM test cases"));
                  (py "total_cases", PInt (Z.of_nat (length cs)));
                  (py "bulk_validation", bulk_validation_of doc);
                  (py "test_cases", PList summary)]) w
    | (Raise e, w) => (Raise e, w)
    end.
Proof.
  intros Hcs. apply (run_items doc (PList cs)); [|done..].
  destruct doc as [| | | | | |kvs]; try discriminate.
  unfold test_cases_of in Hcs. cbn [getitem].
  destruct (dict_lookup (py "test_cases") kvs) as [tc|]; [|discriminate].
  destruct tc; try discriminate. by injection Hcs as ->.
Qed.

Lemma run_before_loop (src : source) dir (e : exn) :
  loaded_items src = Raise e →
  run src dir = (Raise e, World src (Some (default ∅ dir)) []).
Proof.
  intros He. rewrite run_mkdir.
  destruct src as [| |e'|doc]; cbn [loaded_items] in He.
  - by injection He as <-.
  - by injection He as <-.
  - by injection He as <-.
  - unfold run, generate_test_inputs.
    rewrite bind_eq. cbn [mkdir_exist_ok test_dir].
    rewrite bind_print_ok by done.
    rewrite bind_eq. cbn [load_test_vectors test_vectors_file].
    destruct (getitem doc (py "test_cases")) as [tc|e'] eqn:Htc.
    + rewrite bind_lift_ok.
      destruct (py_len tc) as [n|e'] eqn:Hlen.
      * destruct (py_len_iter tc n Hlen) as [items Hitems]. congruence.
      * injection He as ->. by rewrite bind_lift_raise.
    + injection He as ->. by rewrite bind_lift_raise.
Qed.

(** The run once the loop is reached, in closed form. *)
Lemma run_loaded (doc : pyobj) items dir :
  loaded_items (Document doc) = Ok items →
  let ws :=
    fixture_files 1 (complete_prefix items)
    ++ match loop_error items with
       | None => [(summary_file_name,
                   json_dumps (summary_document doc items))]
       | Some _ => []
       end in
  run (Document doc) dir
  = (match loop_error items with None => Ok tt | Some e => Raise e end,
     World (Document doc) (Some (write_all ws (default ∅ dir))) ws).
Proof.
  intros Hitems ws. subst ws. cbn [loaded_items] in Hitems.
  destruct (getitem doc (py "test_cases")) as [tc|e'] eqn:Htc; [|done].
  destruct (py_len tc) as [n|e'] eqn:Hlen; [|done].
  pose proof (py_iter_length tc items Hitems) as Hlen'.
  rewrite Hlen in Hlen'. injection Hlen' as ->.
  rewrite (run_items doc tc _ items dir Htc Hlen Hitems).
  erewrite for_test_cases_any by reflexivity.
  cbn [test_vectors_file written app].
  destruct (loop_error items) as [e|].
  - by rewrite app_nil_r.
  - erewrite dump_to_eq by reflexivity. cbn [test_vectors_file written].
    by rewrite write_all_snoc.
Qed.

(** The files of a run that reached the loop have distinct names. *)
Lemma NoDup_loaded_names items (error : option exn) (content : string) :
  NoDup (fixture_files 1 (complete_prefix items)
         ++ match error with
            | None => [(summary_file_name, content)]
            | Some _ => []
            end).*1.
Proof.
  destruct error; [|apply NoDup_run_names].
  rewrite app_nil_r. apply NoDup_fixture_names.
Qed.

(** The run on a valid document whose messages can all be printed. *)
Lemma run_valid (doc : pyobj) cs dir :
  test_cases_of doc = Some cs →
  valid_document doc = true →
  forallb printable_case cs = true →
  let ws := fixture_files 1 cs
            ++ [(summary_file_name, json_dumps (summary_document doc cs))] in
  run (Document doc) dir
  = (Ok tt, World (Document doc) (Some (write_all ws (default ∅ dir))) ws).
Proof.
  intros Hcs Hvalid Hprint ws. unfold valid_document in Hvalid.
  rewrite Hcs in Hvalid.
  rewrite (run_loaded doc cs dir (loaded_items_array doc cs Hcs)).
  rewrite (complete_prefix_all cs Hvalid Hprint).
  by rewrite (proj2 (loop_error_None cs) (conj Hvalid Hprint)).
Qed.

Lemma valid_case_at doc cs (n : nat) (c : pyobj) :
  valid_document doc = true →
  test_cases_of doc = Some cs →
  cs !! n = Some c →
  complete_case c = true.
Proof.
  intros Hvalid Hcs Hn. unfold valid_document in Hvalid.
  rewrite Hcs in Hvalid. rewrite forallb_forall in Hvalid.
  apply Hvalid, list_elem_of_In. by eapply list_elem_of_lookup_2.
Qed.

(** On a valid document the loop reaches every record before which all
    messages can be printed, and leaves its two files. *)
Lemma run_reaches_case (doc : pyobj) cs dir (n : nat) (c : pyobj) :
  valid_document doc = true →
  test_cases_of doc = Some cs →
  cs !! n = Some c →
  forallb printable_case (take n cs) = true →
  let out := run (Document doc) dir in
  ∃ files' : gmap string string,
    test_dir out.2 = Some files'
    ∧ files' !! input_file_name (1 + Z.of_nat n)
      = Some (json_dumps (input_fixture c))
    ∧ files' !! expected_file_name (1 + Z.of_nat n)
      = Some (json_dumps (expected_fixture c))
    ∧ written out.2 !! (2 * n)%nat
      = Some (input_file_name (1 + Z.of_nat n), json_dumps (input_fixture c))
    ∧ written out.2 !! (2 * n + 1)%nat
      = Some (expected_file_name (1 + Z.of_nat n),
              json_dumps (expected_fixture c)).
Proof.
  intros Hvalid Hcs Hn Hprint out. subst out.
  rewrite (run_loaded doc cs dir (loaded_items_array doc cs Hcs)).
  cbn [snd test_dir written].
  unfold valid_document in Hvalid. rewrite Hcs in Hvalid.
  pose proof (complete_prefix_lookup cs n c Hvalid Hprint Hn) as Hreach.
  destruct (fixture_files_lookup _ 1 n c Hreach) as [Hin Hex].
  eexists. split; [done|].
  split; [|split; [|split]].
  - apply write_all_lookup_NoDup; [apply NoDup_loaded_names|].
    apply elem_of_app. left. by eapply list_elem_of_lookup_2.
  - apply write_all_lookup_NoDup; [apply NoDup_loaded_names|].
    apply elem_of_app. left. by eapply list_elem_of_lookup_2.
  - by apply lookup_app_l_Some.
  - by apply lookup_app_l_Some.
Qed.

(** The summary of a valid run whose messages can all be printed. *)
Lemma valid_run_summary (doc : pyobj) cs dir :
  valid_document doc = true →
  test_cases_of doc = Some cs →
  forallb printable_case cs = true →
  ∃ files' : gmap string string,
    test_dir (run (Document doc) dir).2 = Some files'
    ∧ files' !! summary_file_name
      = Some (json_dumps (summary_document doc cs)).
Proof.
  intros Hvalid Hcs Hprint. rewrite (run_valid doc cs dir Hcs Hvalid Hprint).
  eexists. split; [done|]. rewrite write_all_snoc. apply lookup_insert_eq.
Qed.

Lemma forallb_take {A : Type} (f : A → bool) (l : list A) (n : nat) :
  forallb f l = true → forallb f (take n l) = true.
Proof.
  rewrite !forallb_forall. intros Hall x Hx. apply Hall.
  apply list_elem_of_In in Hx. apply list_elem_of_In.
  by apply (subseteq_take n l).
Qed.

End Runs.
(** ** The fixture set of a valid document *)

Section ValidRuns.

Implicit Types (doc : pyobj) (cs : list pyobj)
  (dir : option (gmap string string)).

(** C2, as the specification has it, fails: on a valid document whose first
    record is named by the lone surrogate U+D800 the first pair is written,
    then the message about that case cannot be encoded for the console and
    the run stops with [UnicodeEncodeError], with 2 files written instead
    of 5. *)
Lemma surrogate_name_stops_after_first_pair :
  valid_document surrogate_name_document = true
  ∧ test_cases_of surrogate_name_document
    = Some [case_surrogate_name; case_low]
  ∧ (run (Document surrogate_name_document) None).1
    = Raise UnicodeEncodeError
  ∧ (written (run (Document surrogate_name_document) None).2).*1
    = ["input_case1.json"; "expected_case1.json"].
Proof. repeat split. Qed.

(** C2, amended.  On a valid source document with [k] test cases whose
    printed values (name, input, expected output and tolerance of every
    record) can be encoded for the console, the run succeeds and writes
    exactly [2k+1] files, each once: [input_case{i}.json] and
    [expected_case{i}.json] for [i] from 1 to [k], and
    [test_summary.json].  The directory then holds these and what it held
    before; started on a missing or empty directory it holds [2k+1]
    files. *)
Theorem valid_run_writes_2k_plus_1_files doc cs dir :
  valid_document doc = true →
  test_cases_of doc = Some cs →
  forallb printable_case cs = true →
  let k := length cs in
  let out := run (Document doc) dir in
  out.1 = Ok tt
  ∧ length (written out.2) = (2 * k + 1)%nat
  ∧ NoDup (written out.2).*1
  ∧ (∀ name : string,
       name ∈ (written out.2).*1
       ↔ (∃ i : Z, 1 ≤ i ≤ Z.of_nat k
            ∧ (name = input_file_name i ∨ name = expected_file_name i))
         ∨ name = summary_file_name)
  ∧ ∃ files' : gmap string string,
      test_dir out.2 = Some files'
      ∧ dom files' = list_to_set (written out.2).*1 ∪ dom (default ∅ dir)
      ∧ (default ∅ dir = ∅ → size files' = (2 * k + 1)%nat).
Proof.
  intros Hvalid Hcs Hprint k out. subst out.
  rewrite (run_valid doc cs dir Hcs Hvalid Hprint).
  cbn [fst snd written test_dir].
  set (summary := json_dumps (summary_document doc cs)).
  assert (Hlen : length (fixture_files 1 cs ++ [(summary_file_name, summary)])
                 = (2 * k + 1)%nat).
  { rewrite length_app, length_fixture_files. simpl. lia. }
  split; [done|]. split; [exact Hlen|].
  split; [apply NoDup_run_names|]. split.
  - intros name. rewrite fmap_app, elem_of_app, elem_of_fixture_names.
    cbn [fmap list_fmap fst]. rewrite list_elem_of_singleton.
    split; (intros [(i & Hi & Hname)| ->]; [left; exists i; split|right]);
      first [lia | done].
  - eexists. split; [done|]. split; [apply dom_write_all|].
    intros ->. rewrite <- size_dom, dom_write_all, dom_empty_L.
    rewrite (right_id_L ∅ (∪)), size_list_to_set by apply NoDup_run_names.
    by rewrite length_fmap.
Qed.

Lemma valid_run_writes_2k_plus_1_files_witness :
  valid_document two_case_document = true
  ∧ test_cases_of two_case_document = Some [case_zero; case_low]
  ∧ forallb printable_case [case_zero; case_low] = true
  ∧ length (written (run (Document two_case_document) None).2) = 5%nat.
Proof.
  split; [reflexivity|]. split; [reflexivity|]. split; [reflexivity|].
  exact (proj1 (proj2 (valid_run_writes_2k_plus_1_files two_case_document
                         [case_zero; case_low] None
                         eq_refl eq_refl eq_refl))).
Defined.

(** C3, as the specification has it, fails: on the valid document whose
    first record is named by a lone surrogate the run stops at the message
    about case 1, and [input_case2.json] is never written. *)
Lemma surrogate_name_leaves_no_second_input :
  valid_document surrogate_name_document = true
  ∧ [case_surrogate_name; case_low] !! 1%nat = Some case_low
  ∧ test_dir (run (Document surrogate_name_document) None).2
      ≫= (.!! input_file_name 2)
    = None.
Proof. repeat split. Qed.

(** C3, amended.  On a valid source document, for every case [N] such that
    the printed values of the records before it can be encoded for the
    console, after the run [input_case{N}.json] holds the dump of the
    dictionary whose only key is ["uniform"], with the [uniform_input] of
    the [N]-th record as its value, as loaded. *)
Theorem input_fixture_holds_uniform_input doc cs dir (n : nat) (c : pyobj) :
  valid_document doc = true →
  test_cases_of doc = Some cs →
  cs !! n = Some c →
  forallb printable_case (take n cs) = true →
  ∃ (u : pyobj) (files' : gmap string string),
    getitem c (py "uniform_input") = Ok u
    ∧ test_dir (run (Document doc) dir).2 = Some files'
    ∧ files' !! input_file_name (Z.of_nat n + 1)
      = Some (json_dumps (PDict [(py "uniform", u)])).
Proof.
  intros Hvalid Hcs Hn Hprint.
  pose proof (valid_case_at doc cs n c Hvalid Hcs Hn) as Hc.
  destruct (complete_case_fields c Hc) as (_ & Hu & _).
  destruct (run_reaches_case doc cs dir n c Hvalid Hcs Hn Hprint)
    as (files' & Hdir & Hin & _).
  exists (field "uniform_input" c), files'.
  split; [done|]. split; [done|].
  by replace (Z.of_nat n + 1) with (1 + Z.of_nat n) by lia.
Qed.

Lemma input_fixture_holds_uniform_input_witness :
  valid_document two_case_document = true
  ∧ test_cases_of two_case_document = Some [case_zero; case_low]
  ∧ [case_zero; case_low] !! 1%nat = Some case_low
  ∧ forallb printable_case (take 1 [case_zero; case_low]) = true
  ∧ ∃ (u : pyobj) (files' : gmap string string),
      getitem case_low (py "uniform_input") = Ok u
      ∧ test_dir (run (Document two_case_document) None).2 = Some files'
      ∧ files' !! input_file_name 2
        = Some (json_dumps (PDict [(py "uniform", u)])).
Proof.
  split; [reflexivity|]. split; [reflexivity|]. split; [reflexivity|].
  split; [reflexivity|].
  exact (input_fixture_holds_uniform_input two_case_document
           [case_zero; case_low] None 1 case_low
           eq_refl eq_refl eq_refl eq_refl).
Defined.

(** C4, as the specification has it, fails: on the valid document whose
    first record is named by a lone surrogate only two files are written,
    so the second record gets no fixture pair at all. *)
Lemma surrogate_name_stops_numbering :
  valid_document surrogate_name_document = true
  ∧ [case_surrogate_name; case_low] !! 1%nat = Some case_low
  ∧ written (run (Document surrogate_name_document) None).2 !! 2%nat = None
  ∧ written (run (Document surrogate_name_document) None).2 !! 3%nat = None.
Proof. repeat split. Qed.

(** C4, amended.  Case numbers are positions in the source array, counted
    from 1: on a valid source document the record at position [n] (from
    0), when the printed values of the records before it can be encoded for
    the console, is the [n+1]-th pair written, under the names
    [input_case{n+1}.json] and [expected_case{n+1}.json], whatever its
    [name] field is; another position never gets the same names. *)
Theorem case_numbers_follow_source_order doc cs dir (n : nat) (c : pyobj) :
  valid_document doc = true →
  test_cases_of doc = Some cs →
  cs !! n = Some c →
  forallb printable_case (take n cs) = true →
  let out := run (Document doc) dir in
  written out.2 !! (2 * n)%nat
    = Some (input_file_name (Z.of_nat n + 1), json_dumps (input_fixture c))
  ∧ written out.2 !! (2 * n + 1)%nat
    = Some (expected_file_name (Z.of_nat n + 1),
            json_dumps (expected_fixture c))
  ∧ ∀ m : nat,
      (input_file_name (Z.of_nat m + 1) = input_file_name (Z.of_nat n + 1)
       ∨ expected_file_name (Z.of_nat m + 1)
         = expected_file_name (Z.of_nat n + 1)
       ∨ input_file_name (Z.of_nat m + 1)
         = expected_file_name (Z.of_nat n + 1)
       ∨ expected_file_name (Z.of_nat m + 1)
         = input_file_name (Z.of_nat n + 1)) →
      m = n.
Proof.
  intros Hvalid Hcs Hn Hprint out. subst out.
  destruct (run_reaches_case doc cs dir n c Hvalid Hcs Hn Hprint)
    as (files' & _ & _ & _ & Hw1 & Hw2).
  replace (Z.of_nat n + 1) with (1 + Z.of_nat n) by lia.
  split; [done|]. split; [done|].
  intros m [H|[H|[H|H]]].
  - apply input_file_name_inj in H. lia.
  - apply expected_file_name_inj in H. lia.
  - by apply input_expected_file_name_ne in H.
  - symmetry in H. by apply input_expected_file_name_ne in H.
Qed.

Lemma case_numbers_follow_source_order_witness :
  valid_document two_case_document = true
  ∧ test_cases_of two_case_document = Some [case_zero; case_low]
  ∧ [case_zero; case_low] !! 1%nat = Some case_low
  ∧ forallb printable_case (take 1 [case_zero; case_low]) = true
  ∧ written (run (Document two_case_document) None).2 !! 2%nat
    = Some (input_file_name 2, json_dumps (input_fixture case_low)).
Proof.
  split; [reflexivity|]. split; [reflexivity|]. split; [reflexivity|].
  split; [reflexivity|].
  exact (proj1 (case_numbers_follow_source_order two_case_document
                  [case_zero; case_low] None 1 case_low
                  eq_refl eq_refl eq_refl eq_refl)).
Defined.

(** C5, as the specification has it, fails: on the valid document whose
    first record is named by a lone surrogate the run stops in the loop and
    no [test_summary.json] is written. *)
Lemma surrogate_name_leaves_no_summary :
  valid_document surrogate_name_document = true
  ∧ (run (Document surrogate_name_document) None).1
    = Raise UnicodeEncodeError
  ∧ test_dir (run (Document surrogate_name_document) None).2
      ≫= (.!! summary_file_name)
    = None.
Proof. repeat split. Qed.

(** C5, amended.  On a valid source document whose printed values can be
    encoded for the console, [test_summary.json] holds the dump of a
    dictionary whose [total_cases] is the length of the source [test_cases]
    array and whose [test_cases] lists, in source order, one entry per
    record with its case number, name, input, expected value, tolerance and
    the base names of its two fixture files, both of which the run has
    written. *)
Theorem summary_lists_every_case doc cs dir :
  valid_document doc = true →
  test_cases_of doc = Some cs →
  forallb printable_case cs = true →
  let out := run (Document doc) dir in
  ∃ (files' : gmap string string) (summary : pyobj) (entries : list pyobj),
    test_dir out.2 = Some files'
    ∧ files' !! summary_file_name = Some (json_dumps summary)
    ∧ getitem summary (py "total_cases") = Ok (PInt (Z.of_nat (length cs)))
    ∧ getitem summary (py "test_cases") = Ok (PList entries)
    ∧ length entries = length cs
    ∧ ∀ (n : nat) (c : pyobj), cs !! n = Some c →
        let idx := Z.of_nat n + 1 in
        entries !! n
        = Some (PDict [(py "case", PInt idx);
                       (py "name", field "name" c);
                       (py "input", field "uniform_input" c);
                       (py "expected", field "expected_output" c);
                       (py "tolerance", field "tolerance" c);
                       (py "input_file", PStr (py (input_file_name idx)));
                       (py "expected_file",
                        PStr (py (expected_file_name idx)))])
        ∧ input_file_name idx ∈ (written out.2).*1
        ∧ expected_file_name idx ∈ (written out.2).*1.
Proof.
  intros Hvalid Hcs Hprint out.
  destruct (valid_run_summary doc cs dir Hvalid Hcs Hprint)
    as (files' & Hdir & Hsum).
  exists files', (summary_document doc cs), (summary_entries 1 cs).
  split; [done|]. split; [done|]. split; [done|]. split; [done|].
  split; [apply length_summary_entries|].
  intros n c Hn idx. subst idx out.
  replace (Z.of_nat n + 1) with (1 + Z.of_nat n) by lia.
  split; [by apply summary_entries_lookup|].
  destruct (fixture_files_lookup cs 1 n c Hn) as [Hin Hex].
  rewrite (run_valid doc cs dir Hcs Hvalid Hprint). cbn [snd written].
  rewrite fmap_app.
  split; apply elem_of_app; left.
  - apply (list_elem_of_fmap_2 fst _ _ (list_elem_of_lookup_2 _ _ _ Hin)).
  - apply (list_elem_of_fmap_2 fst _ _ (list_elem_of_lookup_2 _ _ _ Hex)).
Qed.

Lemma summary_lists_every_case_witness :
  valid_document two_case_document = true
  ∧ test_cases_of two_case_document = Some [case_zero; case_low]
  ∧ forallb printable_case [case_zero; case_low] = true
  ∧ ∃ (files' : gmap string string) (summary : pyobj),
      test_dir (run (Document two_case_document) None).2 = Some files'
      ∧ files' !! summary_file_name = Some (json_dumps summary)
      ∧ getitem summary (py "total_cases") = Ok (PInt 2).
Proof.
  split; [reflexivity|]. split; [reflexivity|]. split; [reflexivity|].
  destruct (summary_lists_every_case two_case_document
              [case_zero; case_low] None eq_refl eq_refl eq_refl)
    as (files' & summary & entries & Hdir & Hsum & Htotal & _).
  exists files', summary. split; [exact Hdir|]. split; [exact Hsum|].
  exact Htotal.
Defined.

(** C7, as the specification has it, fails: the valid document whose first
    record is named by a lone surrogate has a [bulk_validation] mapping,
    but the run stops in the loop and writes no summary to carry it. *)
Lemma surrogate_name_drops_bulk_validation :
  valid_document surrogate_name_document = true
  ∧ getitem surrogate_name_document (py "bulk_validation")
    = Ok (PDict [(py "num_samples", PInt 1000)])
  ∧ (written (run (Document surrogate_name_document) (Some ∅)).2).*1
    = [input_file_name 1; expected_file_name 1]
  ∧ test_dir (run (Document surrogate_name_document) (Some ∅)).2
      ≫= (.!! summary_file_name)
    = None.
Proof. repeat split. Qed.

(** C7, amended.  On a valid source document whose printed values can be
    encoded for the console, the [bulk_validation] of the summary is the
    source document's own [bulk_validation] value where it has one, and the
    empty mapping where it has none. *)
Theorem bulk_validation_passes_through doc cs dir :
  valid_document doc = true →
  test_cases_of doc = Some cs →
  forallb printable_case cs = true →
  ∃ (files' : gmap string string) (summary : pyobj),
    test_dir (run (Document doc) dir).2 = Some files'
    ∧ files' !! summary_file_name = Some (json_dumps summary)
    ∧ (∀ b : pyobj, getitem doc (py "bulk_validation") = Ok b →
         getitem summary (py "bulk_validation") = Ok b)
    ∧ (getitem doc (py "bulk_validation")
         = Raise (KeyError (py "bulk_validation")) →
       getitem summary (py "bulk_validation") = Ok (PDict [])).
Proof.
  intros Hvalid Hcs Hprint.
  destruct (valid_run_summary doc cs dir Hvalid Hcs Hprint)
    as (files' & Hdir & Hsum).
  exists files', (summary_document doc cs).
  split; [done|]. split; [done|].
  destruct doc as [| | | | | |kvs]; try discriminate.
  cbn [getitem]. unfold summary_document, bulk_validation_of.
  destruct (dict_lookup (py "bulk_validation") kvs) as [b'|] eqn:Hb.
  - split; [|discriminate]. intros b [= ->]. reflexivity.
  - split; [discriminate|]. intros _. reflexivity.
Qed.

Lemma bulk_validation_passes_through_witness :
  valid_document two_case_document = true
  ∧ test_cases_of two_case_document = Some [case_zero; case_low]
  ∧ forallb printable_case [case_zero; case_low] = true
  ∧ ∃ (files' : gmap string string) (summary : pyobj),
      test_dir (run (Document two_case_document) None).2 = Some files'
      ∧ files' !! summary_file_name = Some (json_dumps summary)
      ∧ getitem summary (py "bulk_validation")
        = Ok (PDict [(py "num_samples", PInt 1000)]).
Proof.
  split; [reflexivity|]. split; [reflexivity|]. split; [reflexivity|].
  destruct (bulk_validation_passes_through two_case_document
              [case_zero; case_low] None eq_refl eq_refl eq_refl)
    as (files' & summary & Hdir & Hsum & Hpresent & _).
  exists files', summary. split; [exact Hdir|]. split; [exact Hsum|].
  exact (Hpresent _ eq_refl).
Defined.

End ValidRuns.

(** ** Runs compared *)

Section Hyperproperties.

Implicit Types (doc : pyobj) (cs : list pyobj)
  (dir : option (gmap string string)).

(** C6.  A second run on the unchanged source file, started on the
    directory the first run left, ends as the first did: same result,
    same files written with the same contents, same directory.  What a
    run writes does not depend on the directory it starts from.  This
    holds for every source file, valid or not. *)
Theorem rerun_is_idempotent (src : source) dir :
  run src (test_dir (run src dir).2) = run src dir
  ∧ ∀ dir' : option (gmap string string),
      (run src dir').1 = (run src dir).1
      ∧ written (run src dir').2 = written (run src dir).2.
Proof.
  destruct (run_outcome src) as (r & ws & Hrun). split.
  - rewrite (Hrun dir). cbn [snd test_dir]. rewrite (Hrun (Some _)).
    cbn [from_option id]. by rewrite write_all_idemp.
  - intros dir'. by rewrite (Hrun dir), (Hrun dir').
Qed.

(** Records that agree on a field they both have give the same value. *)
Lemma agree_field (c1 c2 : pyobj) (k : string) :
  has_field c1 (py k) = true → has_field c2 (py k) = true →
  getitem c1 (py k) = getitem c2 (py k) →
  field k c1 = field k c2.
Proof.
  intros H1%has_field_getitem H2%has_field_getitem Heq.
  rewrite H1, H2 in Heq. by injection Heq.
Qed.

(** C10, as the specification has it, fails: two valid documents have the
    same record at position 2, but in one the first record is named by a
    lone surrogate; that run stops before case 2, so [input_case2.json]
    exists after one run and not after the other. *)
Lemma surrogate_name_hides_later_case :
  valid_document two_case_document = true
  ∧ valid_document surrogate_name_document = true
  ∧ test_cases_of two_case_document ≫= (.!! 1%nat) = Some case_low
  ∧ test_cases_of surrogate_name_document ≫= (.!! 1%nat) = Some case_low
  ∧ test_dir (run (Document two_case_document) None).2
      ≫= (.!! input_file_name 2)
    = Some (json_dumps (input_fixture case_low))
  ∧ test_dir (run (Document surrogate_name_document) None).2
      ≫= (.!! input_file_name 2)
    = None.
Proof. repeat split. Qed.

(** C10, amended.  Two valid source documents whose records at position
    [N] agree on the five fields, and in each of which the printed values
    of the records before [N] can be encoded for the console, get the same
    bytes in [input_case{N}.json] and in [expected_case{N}.json], whatever
    else the documents hold and whatever the directories held before. *)
Theorem case_fixtures_depend_on_own_record doc1 doc2 cs1 cs2 dir1 dir2
    (n : nat) (c1 c2 : pyobj) :
  valid_document doc1 = true →
  valid_document doc2 = true →
  test_cases_of doc1 = Some cs1 →
  test_cases_of doc2 = Some cs2 →
  cs1 !! n = Some c1 →
  cs2 !! n = Some c2 →
  forallb printable_case (take n cs1) = true →
  forallb printable_case (take n cs2) = true →
  Forall (λ k, getitem c1 k = getitem c2 k) required_fields →
  ∃ (files1 files2 : gmap string string) (input expected : string),
    test_dir (run (Document doc1) dir1).2 = Some files1
    ∧ test_dir (run (Document doc2) dir2).2 = Some files2
    ∧ files1 !! input_file_name (Z.of_nat n + 1) = Some input
    ∧ files2 !! input_file_name (Z.of_nat n + 1) = Some input
    ∧ files1 !! expected_file_name (Z.of_nat n + 1) = Some expected
    ∧ files2 !! expected_file_name (Z.of_nat n + 1) = Some expected.
Proof.
  intros Hv1 Hv2 Hcs1 Hcs2 Hn1 Hn2 Hp1 Hp2 Hagree.
  rewrite Forall_forall in Hagree.
  pose proof (valid_case_at _ _ _ _ Hv1 Hcs1 Hn1) as Hc1.
  pose proof (valid_case_at _ _ _ _ Hv2 Hcs2 Hn2) as Hc2.
  assert (Hfields : ∀ k : string, py k ∈ required_fields →
                      field k c1 = field k c2).
  { intros k Hk. apply agree_field; [| |by apply Hagree].
    - unfold complete_case in Hc1. rewrite forallb_forall in Hc1.
      by apply Hc1, list_elem_of_In.
    - unfold complete_case in Hc2. rewrite forallb_forall in Hc2.
      by apply Hc2, list_elem_of_In. }
  assert (Hinput : input_fixture c1 = input_fixture c2).
  { unfold input_fixture.
    rewrite (Hfields "uniform_input") by (unfold required_fields; set_solver).
    done. }
  assert (Hexpected : expected_fixture c1 = expected_fixture c2).
  { unfold expected_fixture.
    rewrite (Hfields "expected_output"), (Hfields "tolerance"),
      (Hfields "name"), (Hfields "notes")
      by (unfold required_fields; set_solver).
    done. }
  destruct (run_reaches_case doc1 cs1 dir1 n c1 Hv1 Hcs1 Hn1 Hp1)
    as (files1 & Hdir1 & Hin1 & Hex1 & _).
  destruct (run_reaches_case doc2 cs2 dir2 n c2 Hv2 Hcs2 Hn2 Hp2)
    as (files2 & Hdir2 & Hin2 & Hex2 & _).
  replace (Z.of_nat n + 1) with (1 + Z.of_nat n) by lia.
  exists files1, files2, (json_dumps (input_fixture c1)),
    (json_dumps (expected_fixture c1)).
  rewrite Hinput at 2. rewrite Hexpected at 2. done.
Qed.

Lemma case_fixtures_depend_on_own_record_witness :
  valid_document two_case_document = true
  ∧ valid_document three_case_document = true
  ∧ forallb printable_case (take 1 [case_zero; case_low]) = true
  ∧ forallb printable_case
      (take 1 [case_low; case_low_reordered; case_zero]) = true
  ∧ Forall (λ k, getitem case_low k = getitem case_low_reordered k)
      required_fields
  ∧ ∃ (files1 files2 : gmap string string) (input expected : string),
      test_dir (run (Document two_case_document) None).2 = Some files1
      ∧ test_dir (run (Document three_case_document)
                    (Some {[ input_file_name 2 := "stale" ]})).2
        = Some files2
      ∧ files1 !! input_file_name 2 = Some input
      ∧ files2 !! input_file_name 2 = Some input
      ∧ files1 !! expected_file_name 2 = Some expected
      ∧ files2 !! expected_file_name 2 = Some expected.
Proof.
  split; [reflexivity|]. split; [reflexivity|]. split; [reflexivity|].
  split; [reflexivity|].
  assert (Hagree : Forall (λ k, getitem case_low k
                                = getitem case_low_reordered k)
                     required_fields)
    by (repeat constructor).
  split; [exact Hagree|].
  exact (case_fixtures_depend_on_own_record
           two_case_document three_case_document
           [case_zero; case_low] [case_low; case_low_reordered; case_zero]
           None (Some {[ input_file_name 2 := "stale" ]})
           1 case_low case_low_reordered
           eq_refl eq_refl eq_refl eq_refl eq_refl eq_refl eq_refl eq_refl
           Hagree).
Defined.

End Hyperproperties.

(** ** Runs that stop early, and the empty document *)

Section Failures.

Implicit Types (doc : pyobj) (cs : list pyobj)
  (dir : option (gmap string string)).

(** C8, as the specification has it, fails: with no source file and no
    output directory the run still creates the directory before it finds
    the source file missing. *)
Lemma missing_source_still_creates_directory :
  (run Absent None).1 = Raise FileNotFoundError
  ∧ test_dir (run Absent None).2 = Some ∅
  ∧ test_dir (run Absent None).2 ≠ None.
Proof. repeat split. discriminate. Qed.

(** C8, amended.  With no source file the run fails with
    [FileNotFoundError] and writes no file; the files of an existing
    output directory are left as they were, and a missing output directory
    has been created, empty. *)
Theorem missing_source_writes_nothing dir :
  run Absent dir
  = (Raise FileNotFoundError, World Absent (Some (default ∅ dir)) []).
Proof. by destruct dir. Qed.

(** C9.  When [test_cases] is the empty array the run succeeds and writes
    [test_summary.json] only, with [total_cases] 0 and an empty
    [test_cases] list. *)
Theorem empty_test_cases_write_summary_only doc dir :
  test_cases_of doc = Some [] →
  ∃ summary : pyobj,
    run (Document doc) dir
    = (Ok tt,
       World (Document doc)
             (Some (<[summary_file_name := json_dumps summary]>
                      (default ∅ dir)))
             [(summary_file_name, json_dumps summary)])
    ∧ getitem summary (py "total_cases") = Ok (PInt 0)
    ∧ getitem summary (py "test_cases") = Ok (PList []).
Proof.
  intros Hcs. exists (summary_document doc []).
  split; [|done]. by rewrite (run_document doc [] dir Hcs).
Qed.

Lemma empty_test_cases_write_summary_only_witness :
  test_cases_of no_case_document = Some []
  ∧ (written (run (Document no_case_document) None).2).*1
    = [summary_file_name].
Proof.
  split; [reflexivity|].
  destruct (empty_test_cases_write_summary_only no_case_document None
              eq_refl) as (summary & Hrun & _).
  rewrite Hrun. reflexivity.
Defined.

(** C1, as the specification has it, fails: with the third of five
    records lacking [tolerance], the run stops with a [KeyError] that
    names the field, after it has written the fixture files of the first
    two records. *)
Lemma defective_case_leaves_earlier_fixtures :
  let out := run (Document defective_document) (Some ∅) in
  out.1 = Raise (KeyError (py "tolerance"))
  ∧ (written out.2).*1
    = ["input_case1.json"; "expected_case1.json";
       "input_case2.json"; "expected_case2.json"]
  ∧ written out.2 ≠ [].
Proof. repeat split. discriminate. Qed.

(** C1, amended.  When the first record that lacks one of the five
    required fields is at index [i], and the printed values of the records
    before it can be encoded for the console, the run fails with a
    [KeyError] naming the first field that record lacks; by then it has
    written the fixture pairs of the [i-1] records before it, and it writes
    no file for index [i] or a later one and no [test_summary.json]. *)
Theorem missing_field_stops_at_defective_case doc dir
    (pre post : list pyobj) (kvs : list (str * pyobj)) (k : str) :
  test_cases_of doc = Some (pre ++ PDict kvs :: post) →
  forallb complete_case pre = true →
  forallb printable_case pre = true →
  first_missing_field (PDict kvs) = Some k →
  let out := run (Document doc) dir in
  out.1 = Raise (KeyError k)
  ∧ written out.2 = fixture_files 1 pre
  ∧ length (written out.2) = (2 * length pre)%nat
  ∧ (∀ name : string,
       name ∈ (written out.2).*1
       ↔ ∃ i : Z, 1 ≤ i ≤ Z.of_nat (length pre)
           ∧ (name = input_file_name i ∨ name = expected_file_name i))
  ∧ test_dir out.2 = Some (write_all (written out.2) (default ∅ dir)).
Proof.
  intros Hcs Hpre Hprint Hk out. subst out.
  rewrite (run_document doc _ dir Hcs).
  erewrite (for_test_cases_complete pre _ Hpre Hprint) by reflexivity.
  rewrite (for_test_cases_missing_field kvs k _ _ _ _ Hk).
  cbn [fst snd written test_dir app].
  split; [done|]. split; [done|].
  split; [apply length_fixture_files|]. split; [|done].
  intros name. rewrite elem_of_fixture_names.
  split; intros (i & Hi & Hname); exists i; (split; [lia | done]).
Qed.

Lemma missing_field_stops_at_defective_case_witness :
  test_cases_of defective_document
    = Some ([case_zero; case_low]
            ++ case_without_tolerance :: [case_zero; case_low])
  ∧ forallb complete_case [case_zero; case_low] = true
  ∧ forallb printable_case [case_zero; case_low] = true
  ∧ first_missing_field case_without_tolerance = Some (py "tolerance")
  ∧ (run (Document defective_document) None).1
    = Raise (KeyError (py "tolerance"))
  ∧ length (written (run (Document defective_document) None).2) = 4%nat.
Proof.
  split; [reflexivity|]. split; [reflexivity|]. split; [reflexivity|].
  split; [reflexivity|].
  destruct (missing_field_stops_at_defective_case defective_document None
              [case_zero; case_low] [case_zero; case_low] _
              (py "tolerance") eq_refl eq_refl eq_refl eq_refl)
    as (Hres & _ & Hlen & _).
  split; [exact Hres | exact Hlen].
Defined.

End Failures.
(** * Further properties of the script *)

Section EveryRun.

Implicit Types (items cs : list pyobj) (dir : option (gmap string string)).

(** X1.  On a valid source document, for every case [N] such that the
    printed values of the records before it can be encoded for the console,
    after the run [expected_case{N}.json] holds the dump of the dictionary
    with the keys [expected_output], [tolerance], [name], [notes], in this
    order, whose values are those fields of the [N]-th record, as loaded. *)
Theorem expected_fixture_holds_four_fields (doc : pyobj) cs dir
    (n : nat) (c : pyobj) :
  valid_document doc = true →
  test_cases_of doc = Some cs →
  cs !! n = Some c →
  forallb printable_case (take n cs) = true →
  ∃ (expected_output tolerance name notes : pyobj)
    (files' : gmap string string),
    getitem c (py "expected_output") = Ok expected_output
    ∧ getitem c (py "tolerance") = Ok tolerance
    ∧ getitem c (py "name") = Ok name
    ∧ getitem c (py "notes") = Ok notes
    ∧ test_dir (run (Document doc) dir).2 = Some files'
    ∧ files' !! expected_file_name (Z.of_nat n + 1)
      = Some (json_dumps (PDict [(py "expected_output", expected_output);
                                 (py "tolerance", tolerance);
                                 (py "name", name);
                                 (py "notes", notes)])).
Proof.
  intros Hvalid Hcs Hn Hprint.
  pose proof (valid_case_at doc cs n c Hvalid Hcs Hn) as Hc.
  destruct (complete_case_fields c Hc) as (Hname & _ & He & Ht & Hnotes).
  destruct (run_reaches_case doc cs dir n c Hvalid Hcs Hn Hprint)
    as (files' & Hdir & _ & Hex & _).
  exists (field "expected_output" c), (field "tolerance" c),
    (field "name" c), (field "notes" c), files'.
  repeat (split; [done|]).
  by replace (Z.of_nat n + 1) with (1 + Z.of_nat n) by lia.
Qed.

Lemma expected_fixture_holds_four_fields_witness :
  valid_document surrogate_name_document = true
  ∧ test_cases_of surrogate_name_document
    = Some [case_surrogate_name; case_low]
  ∧ [case_surrogate_name; case_low] !! 0%nat = Some case_surrogate_name
  ∧ forallb printable_case (take 0 [case_surrogate_name; case_low]) = true
  ∧ ∃ files' : gmap string string,
      test_dir (run (Document surrogate_name_document) None).2 = Some files'
      ∧ files' !! expected_file_name 1
        = Some (json_dumps
                  (PDict [(py "expected_output", PFloat "0.5");
                          (py "tolerance", PFloat "0.01");
                          (py "name", PStr [55296%N]);
                          (py "notes", PStr (py "unpaired surrogate"))])).
Proof.
  split; [reflexivity|]. split; [reflexivity|]. split; [reflexivity|].
  split; [reflexivity|].
  destruct (expected_fixture_holds_four_fields surrogate_name_document
              [case_surrogate_name; case_low] None 0 case_surrogate_name
              eq_refl eq_refl eq_refl eq_refl)
    as (e & t & nm & nt & files' & He & Ht & Hnm & Hnt & Hdir & Hfile).
  injection He as <-. injection Ht as <-.
  injection Hnm as <-. injection Hnt as <-.
  exists files'. split; [exact Hdir | exact Hfile].
Defined.

(** X2.  When opening or parsing the source file raises, or the loaded
    value has no usable [test_cases] (it is not an object, the key is
    missing, or the value has no length), the run stops with that exception
    before the loop: no file is written, the files of the output directory
    stay as they were, and the directory exists afterwards.  A loaded
    document fails there with [KeyError('test_cases')] or [TypeError]; any
    other exception is the one that opening or parsing raised. *)
Theorem failure_before_loop_writes_nothing (src : source) dir (e : exn) :
  loaded_items src = Raise e →
  run src dir = (Raise e, World src (Some (default ∅ dir)) [])
  ∧ (src = Absent ∧ e = FileNotFoundError
     ∨ src = NotJSON ∧ e = JSONDecodeError
     ∨ src = Unreadable e
     ∨ ∃ doc, src = Document doc
         ∧ (e = KeyError (py "test_cases") ∨ e = TypeError)).
Proof.
  intros He. split; [by apply run_before_loop|].
  destruct src as [| |e'|doc]; cbn [loaded_items] in He.
  - left. by injection He as <-.
  - right; left. by injection He as <-.
  - right; right; left. by injection He as ->.
  - right; right; right. exists doc. split; [done|].
    destruct (getitem doc (py "test_cases")) as [tc|e'] eqn:Htc.
    + right. destruct tc; cbn in He; first [discriminate | by injection He].
    + injection He as ->.
      destruct doc as [| | | | | |kvs]; cbn in Htc;
        try (right; by injection Htc).
      destruct (dict_lookup _ _); [done|]. left. by injection Htc.
Qed.

Lemma failure_before_loop_writes_nothing_witness :
  loaded_items (Document (PDict [(py "cases", PList [case_zero])]))
    = Raise (KeyError (py "test_cases"))
  ∧ run (Document (PDict [(py "cases", PList [case_zero])]))
        (Some {[ "notes.txt" := "kept" ]})
    = (Raise (KeyError (py "test_cases")),
       World (Document (PDict [(py "cases", PList [case_zero])]))
             (Some {[ "notes.txt" := "kept" ]}) []).
Proof.
  split; [reflexivity|].
  exact (proj1 (failure_before_loop_writes_nothing
                  (Document (PDict [(py "cases", PList [case_zero])]))
                  (Some {[ "notes.txt" := "kept" ]})
                  (KeyError (py "test_cases")) eq_refl)).
Defined.





(** X6.  An item of the [test_cases] array that is not an object makes
    the run fail with [TypeError] when the loop reaches it, which it does
    when the records before it are complete and their printed values can be
    encoded for the console; the fixture pairs of those records have been
    written, and nothing else. *)
Theorem non_record_item_raises_type_error (doc : pyobj) dir
    (pre post : list pyobj) (c : pyobj) :
  test_cases_of doc = Some (pre ++ c :: post) →
  forallb complete_case pre = true →
  forallb printable_case pre = true →
  match c with PDict _ => False | _ => True end →
  let out := run (Document doc) dir in
  out.1 = Raise TypeError
  ∧ written out.2 = fixture_files 1 pre
  ∧ length (written out.2) = (2 * length pre)%nat
  ∧ test_dir out.2 = Some (write_all (written out.2) (default ∅ dir)).
Proof.
  intros Hcs Hpre Hprint Hc out. subst out.
  rewrite (run_document doc _ dir Hcs).
  erewrite (for_test_cases_complete pre _ Hpre Hprint) by reflexivity.
  assert (Hstop : ∀ idx summary w,
            for_test_cases idx (c :: post) summary w = (Raise TypeError, w))
    by (intros; by destruct c).
  rewrite Hstop. cbn [fst snd written test_dir app].
  repeat (split; [done|]). split; [apply length_fixture_files | done].
Qed.

Lemma non_record_item_raises_type_error_witness :
  test_cases_of number_among_cases_document
    = Some ([case_zero] ++ PInt 7 :: [case_low])
  ∧ forallb complete_case [case_zero] = true
  ∧ forallb printable_case [case_zero] = true
  ∧ (run (Document number_among_cases_document) None).1 = Raise TypeError
  ∧ length (written (run (Document number_among_cases_document) None).2)
    = 2%nat.
Proof.
  split; [reflexivity|]. split; [reflexivity|]. split; [reflexivity|].
  destruct (non_record_item_raises_type_error number_among_cases_document
              None [case_zero] [case_low] (PInt 7) eq_refl eq_refl eq_refl I)
    as (Hres & _ & Hlen & _).
  split; [exact Hres | exact Hlen].
Defined.

(** X7.  When [test_cases] is an object or a string instead of an array,
    the loop runs through its keys or characters, none of which is a
    record: if it is empty the run succeeds and writes only
    [test_summary.json], otherwise the run fails with [TypeError] and
    writes nothing. *)
Theorem object_or_string_test_cases (doc test_cases : pyobj) dir :
  getitem doc (py "test_cases") = Ok test_cases →
  match test_cases with PDict _ | PStr _ => True | _ => False end →
  let out := run (Document doc) dir in
  (py_len test_cases = Ok 0 →
   out.1 = Ok tt ∧ (written out.2).*1 = [summary_file_name])
  ∧ (py_len test_cases ≠ Ok 0 →
     out.1 = Raise TypeError ∧ written out.2 = []).
Proof.
  intros Htc Hshape out. subst out.
  assert (∃ items, loaded_items (Document doc) = Ok items
            ∧ py_len test_cases = Ok (Z.of_nat (length items))
            ∧ (∀ c, c ∈ items → ∃ s, c = PStr s))
    as (items & Hload & Hlen & Hstr).
  { cbn [loaded_items]. rewrite Htc.
    destruct test_cases as [| | | |s| |kvs]; try done; cbn [py_len py_iter];
      eexists; (split; [done|]); rewrite length_fmap; (split; [done|]);
      intros c (x & -> & _)%list_elem_of_fmap; by eexists. }
  rewrite (run_loaded doc items dir Hload). cbn [fst snd written].
  rewrite Hlen. destruct items as [|c items].
  - split; [done|]. intros []. done.
  - split; [intros [= H]; cbn in H; lia|]. intros _.
    destruct (Hstr c) as [s ->]; [apply list_elem_of_here|]. done.
Qed.

Lemma object_or_string_test_cases_witness :
  getitem keyed_cases_document (py "test_cases")
    = Ok (PDict [(py "zero", case_zero)])
  ∧ (run (Document keyed_cases_document) None).1 = Raise TypeError
  ∧ written (run (Document keyed_cases_document) None).2 = [].
Proof.
  split; [reflexivity|].
  destruct (object_or_string_test_cases keyed_cases_document
              (PDict [(py "zero", case_zero)]) None eq_refl I)
    as [_ Hfail].
  apply Hfail. discriminate.
Defined.

(** X8.  Whatever the source file, a run deletes nothing: afterwards the
    output directory exists and holds every name it held before; a file
    the run did not write keeps its content, every other content was
    written by this run, and the source file is as it was. *)
Theorem run_deletes_nothing (src : source) dir :
  let out := run src dir in
  ∃ files' : gmap string string,
    test_dir out.2 = Some files'
    ∧ dom (default ∅ dir) ⊆ dom files'
    ∧ (∀ name : string, name ∉ (written out.2).*1 →
         files' !! name = default ∅ dir !! name)
    ∧ (∀ name content : string, files' !! name = Some content →
         default ∅ dir !! name = Some content
         ∨ (name, content) ∈ written out.2)
    ∧ test_vectors_file out.2 = src.
Proof.
  intros out. subst out. destruct (run_outcome src) as (r & ws & Hrun).
  rewrite (Hrun dir). cbn [snd test_dir written test_vectors_file].
  eexists. split; [done|]. split; [|split; [|split; [|done]]].
  - rewrite dom_write_all. set_solver.
  - intros name Hname. by apply write_all_lookup_other.
  - intros name content. apply elem_of_write_all.
Qed.

(** X9.  A run on a valid document after a run on a valid document with
    no more test cases, the printed values of both being encodable for the
    console, leaves the directory the later run alone would leave: every
    file of the earlier run is overwritten. *)
Theorem later_run_overwrites_smaller_run (doc1 doc2 : pyobj) cs1 cs2 dir :
  valid_document doc1 = true →
  valid_document doc2 = true →
  test_cases_of doc1 = Some cs1 →
  test_cases_of doc2 = Some cs2 →
  forallb printable_case cs1 = true →
  forallb printable_case cs2 = true →
  (length cs1 ≤ length cs2)%nat →
  test_dir (run (Document doc2) (test_dir (run (Document doc1) dir).2)).2
  = test_dir (run (Document doc2) dir).2.
Proof.
  intros Hv1 Hv2 Hcs1 Hcs2 Hp1 Hp2 Hle.
  rewrite (run_valid doc1 cs1 dir Hcs1 Hv1 Hp1). cbn [snd test_dir].
  rewrite !(run_valid doc2 cs2 _ Hcs2 Hv2 Hp2).
  cbn [snd test_dir from_option id].
  f_equal. apply write_all_absorb. intros name.
  rewrite !fmap_app, !elem_of_app, !elem_of_fixture_names.
  intros [(i & Hi & Hname)|Hsum]; [left|by right].
  exists i. split; [lia | done].
Qed.

Lemma later_run_overwrites_smaller_run_witness :
  valid_document one_case_document = true
  ∧ valid_document two_case_document = true
  ∧ forallb printable_case [case_zero] = true
  ∧ forallb printable_case [case_zero; case_low] = true
  ∧ (length [case_zero] ≤ length [case_zero; case_low])%nat
  ∧ test_dir (run (Document two_case_document)
                (test_dir (run (Document one_case_document) None).2)).2
    = test_dir (run (Document two_case_document) None).2.
Proof.
  split; [reflexivity|]. split; [reflexivity|]. split; [reflexivity|].
  split; [reflexivity|].
  assert (Hle : (length [case_zero] ≤ length [case_zero; case_low])%nat)
    by (simpl; lia).
  split; [exact Hle|].
  exact (later_run_overwrites_smaller_run one_case_document
           two_case_document [case_zero] [case_zero; case_low] None
           eq_refl eq_refl eq_refl eq_refl eq_refl eq_refl Hle).
Defined.

(** X10.  A run on a valid document with fewer test cases than an earlier
    valid run leaves the earlier fixture pairs of the higher case numbers
    in place, while the new summary counts only the new cases: the
    directory then holds case files the summary does not list.  This is
    for an earlier run that reached those cases and a later run whose
    printed values can all be encoded for the console. *)
Theorem smaller_run_leaves_stale_fixtures (doc1 doc2 : pyobj) cs1 cs2 dir
    (n : nat) (c : pyobj) :
  valid_document doc1 = true →
  valid_document doc2 = true →
  test_cases_of doc1 = Some cs1 →
  test_cases_of doc2 = Some cs2 →
  cs1 !! n = Some c →
  forallb printable_case (take n cs1) = true →
  forallb printable_case cs2 = true →
  (length cs2 ≤ n)%nat →
  let out := run (Document doc2) (test_dir (run (Document doc1) dir).2) in
  ∃ (files' : gmap string string) (summary : pyobj),
    out.1 = Ok tt
    ∧ test_dir out.2 = Some files'
    ∧ files' !! input_file_name (Z.of_nat n + 1)
      = Some (json_dumps (input_fixture c))
    ∧ files' !! expected_file_name (Z.of_nat n + 1)
      = Some (json_dumps (expected_fixture c))
    ∧ files' !! summary_file_name = Some (json_dumps summary)
    ∧ getitem summary (py "total_cases") = Ok (PInt (Z.of_nat (length cs2))).
Proof.
  intros Hv1 Hv2 Hcs1 Hcs2 Hn Hp1 Hp2 Hlen out. subst out.
  destruct (run_reaches_case doc1 cs1 dir n c Hv1 Hcs1 Hn Hp1)
    as (files1 & Hdir1 & Hfile_in & Hfile_ex & _).
  rewrite Hdir1.
  rewrite (run_valid doc2 cs2 _ Hcs2 Hv2 Hp2).
  cbn [fst snd test_dir from_option id].
  replace (Z.of_nat n + 1) with (1 + Z.of_nat n) by lia.
  eexists _, (summary_document doc2 cs2). split; [done|]. split; [done|].
  assert (Hfresh : ∀ name,
            (∃ i, 1 + Z.of_nat (length cs2) ≤ i
               ∧ (name = input_file_name i ∨ name = expected_file_name i)) →
            name ∉ (fixture_files 1 cs2
                    ++ [(summary_file_name,
                         json_dumps (summary_document doc2 cs2))]).*1).
  { intros name (i & Hi & Hname).
    rewrite fmap_app, elem_of_app, elem_of_fixture_names.
    intros [(j & Hj & Hname')|Hsum%list_elem_of_singleton].
    - destruct Hname as [->| ->], Hname' as [Heq|Heq].
      + apply input_file_name_inj in Heq. lia.
      + by apply input_expected_file_name_ne in Heq.
      + symmetry in Heq. by apply input_expected_file_name_ne in Heq.
      + apply expected_file_name_inj in Heq. lia.
    - destruct Hname as [->| ->].
      + by apply input_summary_file_name_ne in Hsum.
      + by apply expected_summary_file_name_ne in Hsum. }
  split; [|split; [|split; [|done]]].
  - rewrite write_all_lookup_other; [done|].
    apply Hfresh. exists (1 + Z.of_nat n). split; [lia | by left].
  - rewrite write_all_lookup_other; [done|].
    apply Hfresh. exists (1 + Z.of_nat n). split; [lia | by right].
  - rewrite write_all_snoc. apply lookup_insert_eq.
Qed.

Lemma smaller_run_leaves_stale_fixtures_witness :
  valid_document two_case_document = true
  ∧ valid_document one_case_document = true
  ∧ [case_zero; case_low] !! 1%nat = Some case_low
  ∧ forallb printable_case (take 1 [case_zero; case_low]) = true
  ∧ forallb printable_case [case_zero] = true
  ∧ (length [case_zero] ≤ 1)%nat
  ∧ ∃ files' : gmap string string,
      test_dir (run (Document one_case_document)
                  (test_dir (run (Document two_case_document) None).2)).2
      = Some files'
      ∧ files' !! input_file_name 2
        = Some (json_dumps (input_fixture case_low)).
Proof.
  split; [reflexivity|]. split; [reflexivity|]. split; [reflexivity|].
  split; [reflexivity|]. split; [reflexivity|].
  assert (Hle : (length [case_zero] ≤ 1)%nat) by (simpl; lia).
  split; [exact Hle|].
  destruct (smaller_run_leaves_stale_fixtures two_case_document
              one_case_document [case_zero; case_low] [case_zero] None
              1 case_low eq_refl eq_refl eq_refl eq_refl eq_refl
              eq_refl eq_refl Hle)
    as (files' & summary & _ & Hdir & Hin & _).
  exists files'. split; [exact Hdir | exact Hin].
Defined.

(** X11.  The names of the fixture files never collide: different case
    numbers give different [input_case] names and different
    [expected_case] names, and no [input_case] name is an [expected_case]
    name or [test_summary.json], for any integers. *)
Theorem fixture_file_names_never_collide (i j : Z) :
  (input_file_name i = input_file_name j → i = j)
  ∧ (expected_file_name i = expected_file_name j → i = j)
  ∧ input_file_name i ≠ expected_file_name j
  ∧ input_file_name i ≠ summary_file_name
  ∧ expected_file_name i ≠ summary_file_name.
Proof.
  split; [apply input_file_name_inj|].
  split; [apply expected_file_name_inj|].
  split; [apply input_expected_file_name_ne|].
  split; [apply input_summary_file_name_ne
         |apply expected_summary_file_name_ne].
Qed.

(** X12.  On a valid source document whose printed values can be encoded
    for the console, [test_summary.json] is the last file written, after
    every fixture pair, and holds the dump of a dictionary with exactly the
    keys [description], [total_cases], [bulk_validation], [test_cases], in
    this order, the description being the fixed text. *)
Theorem summary_is_written_last (doc : pyobj) cs dir :
  valid_document doc = true →
  test_cases_of doc = Some cs →
  forallb printable_case cs = true →
  ∃ (bulk_validation : pyobj) (entries : list pyobj),
    last (written (run (Document doc) dir).2)
    = Some (summary_file_name,
            json_dumps
              (PDict [(py "description",
                       PStr (py "Summary of all CIRCOM test cases"));
                      (py "total_cases", PInt (Z.of_nat (length cs)));
                      (py "bulk_validation", bulk_validation);
                      (py "test_cases", PList entries)]))
    ∧ length entries = length cs
    ∧ summary_file_name
      ∉ (take (2 * length cs) (written (run (Document doc) dir).2)).*1.
Proof.
  intros Hvalid Hcs Hprint. rewrite (run_valid doc cs dir Hcs Hvalid Hprint).
  cbn [snd written].
  exists (bulk_validation_of doc), (summary_entries 1 cs).
  split; [by rewrite last_snoc|].
  split; [apply length_summary_entries|].
  rewrite take_app_length' by (by rewrite length_fixture_files).
  apply summary_not_fixture_name.
Qed.

Lemma summary_is_written_last_witness :
  valid_document two_case_document = true
  ∧ test_cases_of two_case_document = Some [case_zero; case_low]
  ∧ forallb printable_case [case_zero; case_low] = true
  ∧ fst <$> last (written (run (Document two_case_document) None).2)
    = Some summary_file_name.
Proof.
  split; [reflexivity|]. split; [reflexivity|]. split; [reflexivity|].
  destruct (summary_is_written_last two_case_document
              [case_zero; case_low] None eq_refl eq_refl eq_refl)
    as (b & entries & Hlast & _).
  rewrite Hlast. reflexivity.
Defined.

(** X13.  No run writes a file twice, whatever the source file: the names
    of the files written in one run are pairwise distinct. *)
Theorem run_writes_each_file_once (src : source) dir :
  NoDup (written (run src dir).2).*1.
Proof.
  destruct (loaded_items src) as [items|e] eqn:Hload.
  - destruct src as [| |e'|doc]; try discriminate.
    rewrite (run_loaded doc items dir Hload). cbn [snd written].
    destruct (loop_error items) as [e|].
    + rewrite app_nil_r. apply NoDup_fixture_names.
    + apply NoDup_run_names.
  - rewrite (run_before_loop src dir e Hload). constructor.
Qed.

(** X14.  On a valid source document whose printed values can be encoded
    for the console, every entry of the summary agrees with the two
    fixture files it names: the file under its [input_file] holds its
    [input] under the key [uniform], and the file under its [expected_file]
    holds its [expected], [tolerance] and [name], with the [notes] of the
    record. *)
Theorem summary_entries_match_fixture_files (doc : pyobj) cs dir
    (n : nat) (c : pyobj) :
  valid_document doc = true →
  test_cases_of doc = Some cs →
  forallb printable_case cs = true →
  cs !! n = Some c →
  ∃ (files' : gmap string string) (summary : pyobj)
    (entries : list pyobj) (entry input expected tolerance name notes : pyobj)
    (input_file expected_file : string),
    test_dir (run (Document doc) dir).2 = Some files'
    ∧ files' !! summary_file_name = Some (json_dumps summary)
    ∧ getitem summary (py "test_cases") = Ok (PList entries)
    ∧ entries !! n = Some entry
    ∧ getitem entry (py "input") = Ok input
    ∧ getitem entry (py "expected") = Ok expected
    ∧ getitem entry (py "tolerance") = Ok tolerance
    ∧ getitem entry (py "name") = Ok name
    ∧ getitem entry (py "input_file") = Ok (PStr (py input_file))
    ∧ getitem entry (py "expected_file") = Ok (PStr (py expected_file))
    ∧ getitem c (py "notes") = Ok notes
    ∧ files' !! input_file = Some (json_dumps (PDict [(py "uniform", input)]))
    ∧ files' !! expected_file
      = Some (json_dumps (PDict [(py "expected_output", expected);
                                 (py "tolerance", tolerance);
                                 (py "name", name);
                                 (py "notes", notes)])).
Proof.
  intros Hvalid Hcs Hprint Hn.
  pose proof (valid_case_at doc cs n c Hvalid Hcs Hn) as Hc.
  destruct (complete_case_fields c Hc) as (_ & _ & _ & _ & Hnotes).
  destruct (valid_run_summary doc cs dir Hvalid Hcs Hprint)
    as (files' & Hdir & Hsum).
  destruct (run_reaches_case doc cs dir n c Hvalid Hcs Hn
              (forallb_take _ _ n Hprint))
    as (files1 & Hdir1 & Hfile_in & Hfile_ex & _).
  rewrite Hdir in Hdir1. injection Hdir1 as <-.
  exists files', (summary_document doc cs), (summary_entries 1 cs),
    (summary_entry (1 + Z.of_nat n) c).
  exists (field "uniform_input" c), (field "expected_output" c),
    (field "tolerance" c), (field "name" c), (field "notes" c).
  exists (input_file_name (1 + Z.of_nat n)),
    (expected_file_name (1 + Z.of_nat n)).
  split; [done|]. split; [done|]. split; [done|].
  split; [by apply summary_entries_lookup|].
  repeat (split; [done|]). done.
Qed.

Lemma summary_entries_match_fixture_files_witness :
  valid_document two_case_document = true
  ∧ test_cases_of two_case_document = Some [case_zero; case_low]
  ∧ forallb printable_case [case_zero; case_low] = true
  ∧ [case_zero; case_low] !! 1%nat = Some case_low
  ∧ ∃ (files' : gmap string string) (input_file : string) (input : pyobj),
      test_dir (run (Document two_case_document) None).2 = Some files'
      ∧ files' !! input_file
        = Some (json_dumps (PDict [(py "uniform", input)])).
Proof.
  split; [reflexivity|]. split; [reflexivity|]. split; [reflexivity|].
  split; [reflexivity|].
  destruct (summary_entries_match_fixture_files two_case_document
              [case_zero; case_low] None 1 case_low
              eq_refl eq_refl eq_refl eq_refl)
    as (files' & summary & entries & entry & input & expected & tolerance
        & name & notes & input_file & expected_file & Hdir & _ & _ & _ & _
        & _ & _ & _ & _ & _ & _ & Hin & _).
  exists files', input_file, input. split; [exact Hdir | exact Hin].
Defined.

End EveryRun.
